(** * Blood-bank backend: a shallow embedding of [backend/server.js]

    The server is an Express application over three Mongoose models
    (Donor, Inventory, Request).  Every route handler is embedded as a
    function in a small state-and-error monad over the document store;
    the library calls the handlers make (ECMAScript [Date], Mongoose
    casting and validation, Express routing) are modelled after their
    documented behaviour in the modules that precede the handlers. *)

From Stdlib Require Import ZArith Lia Bool List Ascii String Permutation Sorted.
From Stdlib Require OrdersEx.
From stdpp Require Import base decidable option list gmap strings pretty sorting.

Open Scope string_scope.
Open Scope Z_scope.

(** ** ECMAScript time values

    A time value is a number of milliseconds since the epoch; the
    definitions follow the abstract operations of the language
    specification (section "Date Objects") name by name. *)
Module JSDate.

Definition msPerDay : Z := 86400000.

Definition Day (t : Z) : Z := t / msPerDay.
Definition TimeWithinDay (t : Z) : Z := t mod msPerDay.

Definition isLeapYear (y : Z) : bool :=
  if negb (y mod 4 =? 0) then false
  else if negb (y mod 100 =? 0) then true
  else if negb (y mod 400 =? 0) then false
  else true.

Definition DaysInYear (y : Z) : Z := if isLeapYear y then 366 else 365.

Definition DayFromYear (y : Z) : Z :=
  365 * (y - 1970) + (y - 1969) / 4 - (y - 1901) / 100 + (y - 1601) / 400.

Definition TimeFromYear (y : Z) : Z := msPerDay * DayFromYear y.

(** The largest year [y] with [TimeFromYear y <= t]: an estimate from
    the mean year length, corrected by at most one year. *)
Definition YearFromTime (t : Z) : Z :=
  let d := Day t in
  let y := 1970 + d * 400 / 146097 in
  if d <? DayFromYear y then y - 1
  else if DayFromYear (y + 1) <=? d then y + 1
  else y.

Definition InLeapYear (t : Z) : Z :=
  if isLeapYear (YearFromTime t) then 1 else 0.

Definition DayWithinYear (t : Z) : Z := Day t - DayFromYear (YearFromTime t).

(** First day (within the year) of month [m], [0 <= m <= 11], with
    [leap] the 0/1 leap-year flag. *)
Definition monthStart (leap m : Z) : Z :=
  match m with
  | 0 => 0
  | 1 => 31
  | 2 => 59 + leap
  | 3 => 90 + leap
  | 4 => 120 + leap
  | 5 => 151 + leap
  | 6 => 181 + leap
  | 7 => 212 + leap
  | 8 => 243 + leap
  | 9 => 273 + leap
  | 10 => 304 + leap
  | _ => 334 + leap
  end.

Definition MonthFromTime (t : Z) : Z :=
  let d := DayWithinYear t in
  let l := InLeapYear t in
  if d <? 31 then 0
  else if d <? 59 + l then 1
  else if d <? 90 + l then 2
  else if d <? 120 + l then 3
  else if d <? 151 + l then 4
  else if d <? 181 + l then 5
  else if d <? 212 + l then 6
  else if d <? 243 + l then 7
  else if d <? 273 + l then 8
  else if d <? 304 + l then 9
  else if d <? 334 + l then 10
  else 11.

Definition DateFromTime (t : Z) : Z :=
  let d := DayWithinYear t in
  let l := InLeapYear t in
  match MonthFromTime t with
  | 0 => d + 1
  | 1 => d - 30
  | 2 => d - 58 - l
  | 3 => d - 89 - l
  | 4 => d - 119 - l
  | 5 => d - 150 - l
  | 6 => d - 180 - l
  | 7 => d - 211 - l
  | 8 => d - 242 - l
  | 9 => d - 272 - l
  | 10 => d - 303 - l
  | _ => d - 333 - l
  end.

(** [MakeDay year month date]: the day number of the first of the
    month [month] (carried into the year) plus [date - 1]. *)
Definition MakeDay (year month date : Z) : Z :=
  let ym := year + month / 12 in
  let mn := month mod 12 in
  DayFromYear ym + monthStart (if isLeapYear ym then 1 else 0) mn + date - 1.

Definition MakeDate (day time : Z) : Z := day * msPerDay + time.

Definition maxTime : Z := 8640000000000000.

(** [TimeClip]: [None] stands for NaN, the time value of an invalid
    date. *)
Definition TimeClip (time : Z) : option Z :=
  if Z.abs time <=? maxTime then Some time else None.

Section LocalZone.
(** [LocalTZA t isUTC]: the offset of the local time zone, in
    milliseconds, at time [t]. *)
Variable LocalTZA : Z -> bool -> Z.

Definition LocalTime (t : Z) : Z := t + LocalTZA t true.
Definition UTC (t : Z) : Z := t - LocalTZA t false.

(** [Date.prototype.getDate], on a valid date. *)
Definition getDate (t : Z) : Z := DateFromTime (LocalTime t).

(** [Date.prototype.setDate]: the new time value. *)
Definition setDate (t : Z) (dt : Z) : option Z :=
  let lt := LocalTime t in
  let newDate :=
    MakeDate (MakeDay (YearFromTime lt) (MonthFromTime lt) dt)
             (TimeWithinDay lt) in
  TimeClip (UTC newDate).
End LocalZone.

End JSDate.

(** ** ECMAScript numbers as strings

    [Number::toString] for the integer-valued numbers: the shortest
    decimal that reads back as the number, written out in full up to 21
    digits and with an exponent beyond. *)
Module JSNumber.

(** The double nearest a positive integer (ties to even): the integer
    itself up to 2^53, and its 53 leading bits, rounded, beyond. *)
Definition round53 (m : Z) : Z :=
  let sh := Z.log2 m - 52 in
  if sh <=? 0 then m
  else
    let q := Z.shiftr m sh in
    let r := m - Z.shiftl q sh in
    let half := Z.shiftl 1 (sh - 1) in
    Z.shiftl (if (half <? r) || ((r =? half) && Z.odd q) then q + 1 else q) sh.

(** The number of decimal digits of a positive integer. *)
Definition decimal_length (m : Z) : Z := Z.of_nat (String.length (pretty m)).

(** The decimal of [k] significant digits that reads back as [x], if
    there is one: the multiple of [10 ^ (len - k)] just below [x] or the
    one just above, the nearer of the two when both do. *)
Definition candidate (x len k : Z) : option Z :=
  let unit := 10 ^ (len - k) in
  let lo := x / unit * unit in
  let hi := lo + unit in
  let ok v := round53 v =? x in
  if ok lo && ok hi then
    if x - lo <? hi - x then Some lo
    else if hi - x <? x - lo then Some hi
    else if Z.even (lo / unit) then Some lo else Some hi
  else if ok lo then Some lo
  else if ok hi then Some hi
  else None.

(** The decimal with the fewest significant digits, from [k] on, that
    reads back as [x]; seventeen digits always do. *)
Fixpoint shortest (fuel : nat) (x len k : Z) : Z :=
  match fuel with
  | O => x
  | S fuel' =>
      if len <=? k then x
      else match candidate x len k with
           | Some v => v
           | None => shortest fuel' x len (k + 1)
           end
  end.

Fixpoint strip_zeros (fuel : nat) (s : Z) : Z :=
  match fuel with
  | O => s
  | S fuel' =>
      if (s mod 10 =? 0) && negb (s =? 0) then strip_zeros fuel' (s / 10)
      else s
  end.

Definition zeros (n : Z) : string := String.concat "" (repeat "0" (Z.to_nat n)).

(** A positive integer: its [k] significant digits [s] and the number
    [n] of digits of its integer part; [s] followed by [n - k] zeros
    when [n <= 21], and [d.ddd e+(n-1)] otherwise. *)
Definition positive_toString (m : Z) : string :=
  let x := round53 m in
  let v := shortest 17 x (decimal_length x) 1 in
  let n := decimal_length v in
  let s := pretty (strip_zeros (Z.to_nat n) v) in
  let k := Z.of_nat (String.length s) in
  if n <=? 21 then s ++ zeros (n - k)
  else
    match s with
    | String d rest =>
        String d (if k =? 1 then "" else "." ++ rest) ++ "e+" ++ pretty (n - 1)
    | EmptyString => s
    end.

Definition toString (n : Z) : string :=
  if n =? 0 then "0"
  else if n <? 0 then "-" ++ positive_toString (- n)
  else positive_toString n.

End JSNumber.

(** ** JavaScript values

    The values a parsed JSON body holds (null, booleans, numbers,
    strings), [undefined] for an absent property, and [Date] objects,
    which the inventory handler builds itself.  Numbers are the
    integer-valued ones, [JNum n] for the double [n]; nested objects and
    arrays, which no schema path of this application accepts, are left
    out, and so is the order of the keys of an object. *)
Inductive jsval :=
| JUndefined
| JNull
| JBool (b : bool)
| JNum (n : Z)
| JStr (s : string)
| JDate (tv : option Z).

(** A request body, and every object literal handed to a model. *)
Abbreviation jsobject := (gmap string jsval).

(** [obj.k] *)
Definition prop (obj : jsobject) (k : string) : jsval :=
  default JUndefined (obj !! k).

Definition ObjectId := N.

(** What a deployment fixes: the time zone and the string conversions of
    the JavaScript runtime, the choices that differ between releases of
    Mongoose and its driver, and the files of the [frontend] directory. *)
Class Platform := {
  (** the offset of local time, [LocalTZA(t, isUTC)] *)
  LocalTZA : Z -> bool -> Z;
  (** [Date.parse]; [None] is NaN *)
  Date_parse : string -> option Z;
  (** [Date.prototype.toString] *)
  Date_toString : option Z -> string;
  (** [Number(s)] on a string; [None] is NaN *)
  StringToNumber : string -> option Z;
  (** the driver's [new ObjectId(s)]; [None] when it throws *)
  ObjectId_of_string : string -> option ObjectId;
  (** whether the [enum] validator lets [null] through *)
  enum_allows_null : bool;
  (** which of the keys that start with [$] an update takes for update
      operators: those of MongoDB, or every such key in older releases *)
  update_operator : string -> bool;
  (** the file under [frontend/] at a path, if there is one *)
  frontend : list string -> option string
}.

(** ** Stored values and documents *)
Inductive bval :=
| BNull
| BNum (n : Z)
| BStr (s : string)
| BDate (t : Z).

Record doc := Doc {
  doc_id : ObjectId;
  doc_fields : gmap string bval
}.

Global Instance bval_eq_dec : EqDecision bval.
Proof. solve_decision. Defined.

Global Instance doc_eq_dec : EqDecision doc.
Proof. solve_decision. Defined.

(** ** Errors a handler can catch *)
Inductive verr := VCast | VRequired | VEnum.

#[warnings="-register-all"] Inductive error :=
| ValidationError (errs : list (string * verr))
    (* [save] of a document that fails [validate], cast failures included *)
| CastError (path : string)
    (* a query filter or an update that does not cast to the schema *)
| UpdateError (op : string)
    (* an update operator whose value is not an object *)
| OneOf (es : list error)
    (* one of several errors of an update: the first in the order of the
       body's keys, which the body as a map does not keep *)
| DuplicateKey
    (* the store's unique index on [_id] *)
| ImmutableField
    (* an update that would change [_id] *)
| DocumentNotFound
    (* [save] of a document that is no longer in the store *)
| Operational.
    (* the store did not answer *)

(** Errors that the request itself causes, as opposed to the store being
    unavailable. *)
Fixpoint client_error (e : error) : bool :=
  match e with
  | ValidationError _ | CastError _ | UpdateError _ => true
  | OneOf es => forallb client_error es
  | DuplicateKey | ImmutableField | DocumentNotFound | Operational => false
  end.

Definition operational_error (e : error) : bool :=
  match e with
  | Operational => true
  | _ => false
  end.

(** ** Schemas *)
Inductive stype := SString | SNumber | SDate.

Inductive sdefault :=
| NoDefault
| DefaultNull
| DefaultNum (n : Z)
| DefaultStr (s : string)
| DefaultNow.

Record spath := SPath {
  p_name : string;
  p_type : stype;
  p_required : bool;
  p_default : sdefault;
  p_enum : option (list string)
}.

Abbreviation schema := (list spath).

(** The version key Mongoose adds to every schema. *)
Definition versionKey : spath := SPath "__v" SNumber false (DefaultNum 0) None.

Definition donorSchema : schema :=
  [ SPath "name" SString true NoDefault None;
    SPath "bloodType" SString true NoDefault None;
    SPath "phone" SString true NoDefault None;
    SPath "email" SString true NoDefault None;
    SPath "address" SString true NoDefault None;
    SPath "lastDonation" SDate false DefaultNull None;
    SPath "createdAt" SDate false DefaultNow None;
    versionKey ].

Definition inventorySchema : schema :=
  [ SPath "bloodType" SString true NoDefault None;
    SPath "donorId" SString true NoDefault None;
    SPath "collectionDate" SDate true NoDefault None;
    SPath "expiryDate" SDate true NoDefault None;
    SPath "status" SString false (DefaultStr "Available")
          (Some ["Available"; "Used"; "Expired"]);
    SPath "createdAt" SDate false DefaultNow None;
    versionKey ].

Definition requestSchema : schema :=
  [ SPath "patientName" SString true NoDefault None;
    SPath "bloodType" SString true NoDefault None;
    SPath "unitsNeeded" SNumber true NoDefault None;
    SPath "priority" SString true NoDefault
          (Some ["Low"; "Medium"; "High"; "Critical"]);
    SPath "hospital" SString true NoDefault None;
    SPath "status" SString false (DefaultStr "Pending")
          (Some ["Pending"; "Fulfilled"; "Cancelled"]);
    SPath "requestDate" SDate false DefaultNow None;
    versionKey ].

Inductive model := Donor | Inventory | Request.

Definition schema_of (m : model) : schema :=
  match m with
  | Donor => donorSchema
  | Inventory => inventorySchema
  | Request => requestSchema
  end.

(** ** The store and the handler monad *)
Record world := World {
  donors : list doc;
  inventory : list doc;
  requests : list doc;
  (** [Date.now()] *)
  now : Z;
  (** the next identifier the driver generates *)
  next_id : ObjectId;
  (** which of the coming store operations fail: [true] is a failure,
      an exhausted list is a store that answers *)
  faults : list bool;
  (** the rejections of promises that nobody handles, as the runtime
      gets them (it warns, or ends the process, as it is set up) *)
  unhandled : list error
}.

Definition docs_of (m : model) (w : world) : list doc :=
  match m with
  | Donor => donors w
  | Inventory => inventory w
  | Request => requests w
  end.

Definition set_docs (m : model) (ds : list doc) (w : world) : world :=
  match m with
  | Donor =>
      World ds (inventory w) (requests w) (now w) (next_id w) (faults w)
            (unhandled w)
  | Inventory =>
      World (donors w) ds (requests w) (now w) (next_id w) (faults w)
            (unhandled w)
  | Request =>
      World (donors w) (inventory w) ds (now w) (next_id w) (faults w)
            (unhandled w)
  end.

(** A computation that reads and writes the store and either returns or
    throws (a promise that resolves or rejects). *)
Definition M (A : Type) : Type := world -> (error + A) * world.

Definition ret {A} (a : A) : M A := fun w => (inr a, w).

Definition throw {A} (e : error) : M A := fun w => (inl e, w).

Definition bind {A B} (m : M A) (k : A -> M B) : M B :=
  fun w =>
    match m w with
    | (inl e, w') => (inl e, w')
    | (inr a, w') => k a w'
    end.

Definition try_catch {A} (m : M A) (h : error -> M A) : M A :=
  fun w =>
    match m w with
    | (inl e, w') => h e w'
    | (inr a, w') => (inr a, w')
    end.

Definition get_world : M world := fun w => (inr w, w).

Definition put_world (w' : world) : M unit := fun _ => (inr tt, w').

Notation "'do' x <- m ; k" := (bind m (fun x => k))
  (at level 10, x name, m at level 100, k at level 200).
Notation "'do_' m ; k" := (bind m (fun _ => k))
  (at level 10, m at level 100, k at level 200).

(** One round trip to the store: it fails when the next fault flag says
    so. *)
Definition db_call : M unit :=
  fun w =>
    match faults w with
    | true :: fs =>
        (inl Operational,
         World (donors w) (inventory w) (requests w) (now w) (next_id w) fs
               (unhandled w))
    | false :: fs =>
        (inr tt,
         World (donors w) (inventory w) (requests w) (now w) (next_id w) fs
               (unhandled w))
    | [] => (inr tt, w)
    end.

(** The world after one construction of an identifier. *)
Definition bump (w : world) : world :=
  World (donors w) (inventory w) (requests w) (now w) (N.succ (next_id w))
        (faults w) (unhandled w).

(** [new ObjectId()] *)
Definition new_ObjectId : M ObjectId := fun w => (inr (next_id w), bump w).

(** A promise that is neither awaited nor returned: what it does to the
    store is done, and its rejection, with no handler attached to it,
    goes to the runtime. *)
Definition detached (m : M unit) : M unit :=
  fun w =>
    match m w with
    | (inl e, w') =>
        (inr tt,
         World (donors w') (inventory w') (requests w') (now w') (next_id w')
               (faults w') (unhandled w' ++ [e]))
    | (inr _, w') => (inr tt, w')
    end.

(** ** The order of a sort

    MongoDB compares values of different kinds by kind first (null and
    missing, then numbers, then strings, then dates) and values of one
    kind among themselves. *)
Definition kind_rank (v : option bval) : Z :=
  match v with
  | None | Some BNull => 0
  | Some (BNum _) => 1
  | Some (BStr _) => 2
  | Some (BDate _) => 3
  end.

Definition string_le (s1 s2 : string) : bool :=
  match OrdersEx.String_as_OT.compare s1 s2 with
  | Gt => false
  | _ => true
  end.

Definition bson_le (a b : option bval) : bool :=
  match a, b with
  | Some (BNum x), Some (BNum y) => x <=? y
  | Some (BStr x), Some (BStr y) => string_le x y
  | Some (BDate x), Some (BDate y) => x <=? y
  | _, _ => kind_rank a <=? kind_rank b
  end.

(** [d1] may come before [d2] in a listing sorted by [{ key: -1 }]. *)
Definition desc_by (key : string) (d1 d2 : doc) : Prop :=
  bson_le (doc_fields d2 !! key) (doc_fields d1 !! key) = true.

Global Instance desc_by_dec key d1 d2 : Decision (desc_by key d1 d2).
Proof. unfold desc_by. apply _. Defined.

(** ** Mongoose

    The operations of the models the handlers call, after the library's
    casting functions ([lib/cast]), the [checkRequired] and [enum]
    validators of its schema types, and its documented query
    behaviour: casting happens before the store is asked, validation
    before a document is written, and an update runs no validators. *)
Section Mongoose.
Context `{Platform}.

(** *** Conversions of the runtime *)

(** [new Date(v)]: the time value of the new date. *)
Definition Date_new (v : jsval) : option Z :=
  match v with
  | JUndefined => None
  | JNull => JSDate.TimeClip 0
  | JBool b => JSDate.TimeClip (if b then 1 else 0)
  | JNum n => JSDate.TimeClip n
  | JStr s => Date_parse s ≫= JSDate.TimeClip
  | JDate tv => tv
  end.

(** [v.toString()] for a value that has one. *)
Definition js_toString (v : jsval) : option string :=
  match v with
  | JUndefined | JNull => None
  | JBool b => Some (if b then "true" else "false")
  | JNum n => Some (JSNumber.toString n)
  | JStr s => Some s
  | JDate tv => Some (Date_toString tv)
  end.

(** *** Casting ([lib/cast/*.js]); [None] is a cast failure.
    [null] casts to [null] at every type; [undefined] never gets
    here. *)
Definition castString (v : jsval) : option bval :=
  match v with
  | JUndefined | JNull => Some BNull
  | _ => BStr <$> js_toString v
  end.

Definition castNumber (v : jsval) : option bval :=
  match v with
  | JUndefined | JNull => Some BNull
  | JStr "" => Some BNull
  | JStr s => BNum <$> StringToNumber s
  | JBool b => Some (BNum (if b then 1 else 0))
  | JNum n => Some (BNum n)
  | JDate tv => BNum <$> tv
  end.

(** A string that reads as a number outside the range of years a date
    can have is taken as milliseconds. *)
Definition castDate (v : jsval) : option bval :=
  match v with
  | JUndefined | JNull => Some BNull
  | JStr "" => Some BNull
  | JBool _ => None
  | JNum n => BDate <$> JSDate.TimeClip n
  | JStr s =>
      match StringToNumber s with
      | Some n =>
          if (275761 <=? n) || (n <? -271820)
          then BDate <$> JSDate.TimeClip n
          else BDate <$> Date_new (JStr s)
      | None => BDate <$> Date_new (JStr s)
      end
  | JDate tv => BDate <$> tv
  end.

Definition cast (t : stype) (v : jsval) : option bval :=
  match t with
  | SString => castString v
  | SNumber => castNumber v
  | SDate => castDate v
  end.

(** [castObjectId]: [null] and [undefined] pass through (here: no
    identifier), anything else goes through its string form. *)
Inductive idcast := IdNone | IdOk (o : ObjectId) | IdError.

Definition castObjectId (v : jsval) : idcast :=
  match js_toString v with
  | None => IdNone
  | Some s =>
      match ObjectId_of_string s with
      | Some o => IdOk o
      | None => IdError
      end
  end.

(** *** Building and validating a document *)

(** What a path of a document under construction holds: a value (or
    nothing), or the cast failure recorded for [validate]. *)
Inductive pathval := PVal (v : option bval) | PCastError.

Definition apply_default (t : Z) (d : sdefault) : option bval :=
  match d with
  | NoDefault => None
  | DefaultNull => Some BNull
  | DefaultNum n => Some (BNum n)
  | DefaultStr s => Some (BStr s)
  | DefaultNow => Some (BDate t)
  end.

Definition init_path (t : Z) (p : spath) (v : jsval) : pathval :=
  match v with
  | JUndefined => PVal (apply_default t (p_default p))
  | _ =>
      match cast (p_type p) v with
      | Some b => PVal (Some b)
      | None => PCastError
      end
  end.

(** [checkRequired] of each schema type. *)
Definition checkRequired (t : stype) (v : option bval) : bool :=
  match t, v with
  | SString, Some (BStr s) => negb (String.eqb s "")
  | SNumber, Some (BNum _) => true
  | SDate, Some (BDate _) => true
  | _, _ => false
  end.

Definition checkEnum (values : list string) (v : option bval) : bool :=
  match v with
  | None => true
  | Some BNull => enum_allows_null
  | Some (BStr s) => bool_decide (s ∈ values)
  | Some _ => false
  end.

Definition validate_path (p : spath) (pv : pathval) : option verr :=
  match pv with
  | PCastError => Some VCast
  | PVal v =>
      if p_required p && negb (checkRequired (p_type p) v)
      then Some VRequired
      else match p_enum p with
           | Some values => if checkEnum values v then None else Some VEnum
           | None => None
           end
  end.

(** A document under construction: [new Model(obj)]. *)
Record newdoc := NewDoc {
  nd_id : idcast;
  nd_paths : list (spath * pathval)
}.

Definition validate (nd : newdoc) : list (string * verr) :=
  match nd_id nd with IdError => [("_id", VCast)] | _ => [] end
  ++ omap (fun '(p, pv) => pair (p_name p) <$> validate_path p pv)
          (nd_paths nd).

Definition fields_of (paths : list (spath * pathval)) : gmap string bval :=
  list_to_map
    (omap (fun '(p, pv) =>
             match pv with
             | PVal (Some b) => Some (p_name p, b)
             | _ => None
             end) paths).

(** [new Model(obj)]: the identifier is a fresh one, unless [obj] has
    an [_id] of its own ([null] included); every schema path takes its
    value from [obj] or its default; properties the schema does not
    declare are dropped. *)
Definition Model_new (m : model) (obj : jsobject) : M newdoc :=
  fun w =>
    let id :=
      match prop obj "_id" with
      | JUndefined => IdOk (next_id w)
      | v => castObjectId v
      end in
    let paths :=
      map (fun p => (p, init_path (now w) p (prop obj (p_name p))))
          (schema_of m) in
    (inr (NewDoc id paths), bump w).

Definition find_id (o : ObjectId) (ds : list doc) : option doc :=
  List.find (fun d => bool_decide (doc_id d = o)) ds.

(** A new document once saved, as the handler holds it: its fields,
    and its [_id], which is [null] when the object it was made from
    said so; the store then has the document under an identifier that
    the driver gave it. *)
Record saved := Saved {
  sv_id : option ObjectId;
  sv_fields : gmap string bval
}.

(** The fields of a document that goes to the store: the version key
    of an insert is 0, whatever the path held. *)
Definition inserted_fields (nd : newdoc) : gmap string bval :=
  <["__v" := BNum 0]> (fields_of (nd_paths nd)).

(** [doc.save()] on a new document: validation, then the insert, for
    which the driver gives a document whose [_id] is [null] an
    identifier of its own. *)
Definition save_new (m : model) (nd : newdoc) : M saved :=
  match validate nd with
  | (_ :: _) as errs => throw (ValidationError errs)
  | [] =>
      do o <- match nd_id nd with
              | IdOk o => ret o
              | _ => new_ObjectId
              end;
      do_ db_call;
      do w <- get_world;
      match find_id o (docs_of m w) with
      | Some _ => throw DuplicateKey
      | None =>
          do_ put_world
                (set_docs m (docs_of m w ++ [Doc o (inserted_fields nd)]) w);
          ret (Saved match nd_id nd with IdOk o => Some o | _ => None end
                     (inserted_fields nd))
      end
  end.

(** [Model.find().sort({ key: -1 })] *)
Definition find_sorted (m : model) (key : string) : M (list doc) :=
  do_ db_call;
  do w <- get_world;
  ret (merge_sort (desc_by key) (docs_of m w)).

Fixpoint remove_id (o : ObjectId) (ds : list doc) : list doc :=
  match ds with
  | [] => []
  | d :: ds' =>
      if bool_decide (doc_id d = o) then ds' else d :: remove_id o ds'
  end.

(** [Model.findByIdAndDelete(id)] *)
Definition findByIdAndDelete (m : model) (id : jsval) : M (option doc) :=
  match castObjectId id with
  | IdError => throw (CastError "_id")
  | IdNone => do_ db_call; ret None
  | IdOk o =>
      do_ db_call;
      do w <- get_world;
      do_ put_world (set_docs m (remove_id o (docs_of m w)) w);
      ret (find_id o (docs_of m w))
  end.

(** [Model.findOne({ _id: id })] *)
Definition findOne_id (m : model) (id : jsval) : M (option doc) :=
  match castObjectId id with
  | IdError => throw (CastError "_id")
  | IdNone => do_ db_call; ret None
  | IdOk o =>
      do_ db_call;
      do w <- get_world;
      ret (find_id o (docs_of m w))
  end.

Fixpoint replace_id (o : ObjectId) (d' : doc) (ds : list doc) : list doc :=
  match ds with
  | [] => []
  | d :: ds' =>
      if bool_decide (doc_id d = o) then d' :: ds'
      else d :: replace_id o d' ds'
  end.

(** *** Updates *)

(** A key that an update takes for an update operator. *)
Definition is_operator (k : string) : bool :=
  match k with
  | String "$" _ => update_operator k
  | _ => false
  end.

(** Whether a value counts as true in a condition. *)
Definition truthy (v : jsval) : bool :=
  match v with
  | JUndefined | JNull | JBool false | JNum 0 | JStr "" => false
  | _ => true
  end.

(** The [$set] an update body stands for: the identifier it sets (if
    it names [_id]) and the schema paths it sets, cast to their types.
    Properties the schema does not declare are dropped. *)
Record update := Update {
  u_id : option idcast;
  u_set : gmap string bval
}.

Definition cast_set (p : spath) (v : jsval) : option (error + bval) :=
  match v with
  | JUndefined => None
  | _ =>
      match cast (p_type p) v with
      | Some b => Some (inr b)
      | None => Some (inl (CastError (p_name p)))
      end
  end.

(** The outcome of casting each schema path the body has. *)
Definition update_casts (sch : schema) (body : jsobject)
  : list (string * (error + bval)) :=
  omap (fun p => pair (p_name p) <$> cast_set p (prop body (p_name p))) sch.

Definition cast_errors (casts : list (string * (error + bval))) : list error :=
  omap (fun '(_, r) => match r with inl e => Some e | inr _ => None end) casts.

Definition cast_values (casts : list (string * (error + bval)))
  : gmap string bval :=
  list_to_map
    (omap (fun '(k, r) => match r with inr b => Some (k, b) | inl _ => None end)
          casts).

(** The keys of a body that are no operators: [castUpdate] moves them
    under [$set]. *)
Definition set_sugar (body : jsobject) : list string :=
  filter (fun k => is_operator k = false) (map fst (map_to_list body)).

(** The operators of a body whose value is no object, as every value of
    these bodies is; [$set] passes when it is there for the keys moved
    under it. *)
Definition invalid_operators (body : jsobject) : list string :=
  filter (fun k => is_operator k = true
                   /\ ~ (k = "$set" /\ set_sugar body <> []))
         (map fst (map_to_list body)).

(** Everything [castUpdate] finds wrong with a body: the schema paths
    and the identifier that do not cast, and the operators without an
    object. *)
Definition update_errors (sch : schema) (body : jsobject) : list error :=
  cast_errors (update_casts sch body)
  ++ match castObjectId (prop body "_id") with
     | IdError => [CastError "_id"]
     | _ => []
     end
  ++ map UpdateError (invalid_operators body).

(** [castUpdate].  A [$set] of its own that is no object cannot take
    the keys moved under it, which fails at once.  Otherwise the keys
    are cast one after the other and the first failure is thrown: the
    only one when there is one, one of them when there are more.
    Without a failure the update sets the schema paths of the body;
    every other key is dropped. *)
Definition castUpdate (sch : schema) (body : jsobject) : error + update :=
  if truthy (prop body "$set") && negb (bool_decide (set_sugar body = []))
  then inl (UpdateError "$set")
  else
    match update_errors sch body with
    | [] =>
        inr (Update match prop body "_id" with
                    | JUndefined => None
                    | v => Some (castObjectId v)
                    end
                    (cast_values (update_casts sch body)))
    | [e] => inl e
    | es => inl (OneOf es)
    end.

(** Whether an update leaves the identifier [o] as it is. *)
Definition keeps_id (o : ObjectId) (u : update) : bool :=
  match u_id u with
  | None => true
  | Some (IdOk o') => bool_decide (o' = o)
  | Some _ => false
  end.

(** [Model.findByIdAndUpdate(id, body, { new: true })]: no validators
    run; the updated document, or [null], is returned. *)
Definition findByIdAndUpdate (m : model) (id : jsval) (body : jsobject)
  : M (option doc) :=
  match castObjectId id with
  | IdError => throw (CastError "_id")
  | idc =>
      match castUpdate (schema_of m) body with
      | inl e => throw e
      | inr u =>
          do_ db_call;
          do w <- get_world;
          match match idc with
                | IdOk o => find_id o (docs_of m w)
                | _ => None
                end with
          | None => ret None
          | Some d =>
              if keeps_id (doc_id d) u then
                let d' := Doc (doc_id d) (u_set u ∪ doc_fields d) in
                do_ put_world
                      (set_docs m (replace_id (doc_id d) d' (docs_of m w)) w);
                ret (Some d')
              else throw ImmutableField
          end
      end
  end.

(** *** A document read from the store, with the assignments made to
    it since. *)
Record loaded := Loaded {
  ld_doc : doc;
  ld_delta : list (spath * pathval)
}.

(** [doc.k = v] *)
Definition assign (m : model) (ld : loaded) (k : string) (v : jsval)
  : loaded :=
  match List.find (fun p => String.eqb (p_name p) k) (schema_of m) with
  | None => ld
  | Some p =>
      let pv :=
        match v with
        | JUndefined => PVal None
        | _ =>
            match cast (p_type p) v with
            | Some b => PVal (Some b)
            | None => PCastError
            end
        end in
      Loaded (ld_doc ld) (ld_delta ld ++ [(p, pv)])
  end.

Definition current (ld : loaded) (p : spath) : pathval :=
  match List.find (fun '(q, _) => String.eqb (p_name q) (p_name p))
                  (rev (ld_delta ld)) with
  | Some (_, pv) => pv
  | None => PVal (doc_fields (ld_doc ld) !! p_name p)
  end.

Definition apply_delta (fs : gmap string bval) (delta : list (spath * pathval))
  : gmap string bval :=
  foldl (fun fs '(p, pv) =>
           match pv with
           | PVal (Some b) => <[p_name p := b]> fs
           | PVal None => delete (p_name p) fs
           | PCastError => fs
           end) fs delta.

(** [doc.save()] on a loaded document: the whole document is
    validated, then the assigned paths are written. *)
Definition save_loaded (m : model) (ld : loaded) : M unit :=
  let d := ld_doc ld in
  let nd := NewDoc (IdOk (doc_id d))
                   (map (fun p => (p, current ld p)) (schema_of m)) in
  match validate nd with
  | (_ :: _) as errs => throw (ValidationError errs)
  | [] =>
      do_ db_call;
      do w <- get_world;
      match find_id (doc_id d) (docs_of m w) with
      | None => throw DocumentNotFound
      | Some d0 =>
          let d' := Doc (doc_id d) (apply_delta (doc_fields d0) (ld_delta ld)) in
          put_world (set_docs m (replace_id (doc_id d) d' (docs_of m w)) w)
      end
  end.
End Mongoose.

(** ** Requests and responses *)
Inductive method := GET | HEAD | POST | PUT | DELETE | PATCH | OPTIONS.

(** A request: its method, the segments of its path ([/api/donors/5] is
    ["api"; "donors"; "5"], the root is the empty list) and its parsed
    JSON body (the empty object when it has none). *)
Record request := Request_ {
  req_method : method;
  req_path : list string;
  req_body : jsobject
}.

(** What a response carries: a JSON array of documents; the envelopes
    [{ success: true, <key>: <document or null> }], with the fields
    alone for a document whose [_id] is [null],
    [{ success: true, message }] and
    [{ success: false, message: error.message }] (the error stands for
    its message); a file; or the framework's own answer. *)
Inductive payload :=
| Docs (ds : list doc)
| Success (key : string) (d : option doc)
| SuccessNullId (key : string) (fields : gmap string bval)
| SuccessMessage (message : string)
| Failure (e : error)
| File (content : string)
| NoBody.

Record response := Response {
  status : Z;
  res_payload : payload
}.

(** [res.status(code).json(body)]; [res.json] alone is [json 200]. *)
Definition json (code : Z) (p : payload) : M response :=
  ret (Response code p).

(** [{ success: true, <key>: d }] for a document just saved. *)
Definition success (key : string) (d : saved) : payload :=
  match sv_id d with
  | Some o => Success key (Some (Doc o (sv_fields d)))
  | None => SuccessNullId key (sv_fields d)
  end.

Definition lower_ascii (c : ascii) : ascii :=
  let n := N_of_ascii c in
  if ((65 <=? n) && (n <=? 90))%N then ascii_of_N (n + 32) else c.

Fixpoint lower (s : string) : string :=
  match s with
  | EmptyString => EmptyString
  | String c s' => String (lower_ascii c) (lower s')
  end.

(** A literal segment of a route matches whatever the case. *)
Definition seg (s literal : string) : bool := String.eqb (lower s) literal.

(** ** The application ([backend/server.js]) *)
Section Server.
Context `{Platform}.

(** *** Donors *)

Definition get_donors : M response :=
  try_catch
    (do donors <- find_sorted Donor "createdAt";
     json 200 (Docs donors))
    (fun error => json 500 (Failure error)).

Definition post_donors (body : jsobject) : M response :=
  try_catch
    (do donor <- Model_new Donor body;
     do donor <- save_new Donor donor;
     json 200 (success "donor" donor))
    (fun error => json 400 (Failure error)).

Definition delete_donors (id : string) : M response :=
  try_catch
    (do_ findByIdAndDelete Donor (JStr id);
     json 200 (SuccessMessage "Donor deleted successfully"))
    (fun error => json 500 (Failure error)).

(** *** Inventory *)

Definition get_inventory : M response :=
  try_catch
    (do inventory <- find_sorted Inventory "createdAt";
     json 200 (Docs inventory))
    (fun error => json 500 (Failure error)).

(** [d.setDate(d.getDate() + 35)] on [d = new Date(collectionDate)] *)
Definition expiry_of (collectionDate : jsval) : option Z :=
  Date_new collectionDate ≫= fun t =>
    JSDate.setDate LocalTZA t (JSDate.getDate LocalTZA t + 35).

(** The donor update: the promise of the lookup is awaited with its
    rejection caught.  The [donor.save()] in the callback is neither
    awaited nor returned: the callback is over before the save, whose
    rejection the [catch] does not see.  The save is taken to be
    through when the request is. *)
Definition update_donor (donorId collectionDate : jsval) : M unit :=
  try_catch
    (do donor <- findOne_id Donor donorId;
     match donor with
     | Some donor =>
         let donor := assign Donor (Loaded donor []) "lastDonation"
                             collectionDate in
         detached (save_loaded Donor donor)
     | None => ret tt
     end)
    (fun _ => ret tt).

Definition post_inventory (body : jsobject) : M response :=
  try_catch
    (let bloodType := prop body "bloodType" in
     let donorId := prop body "donorId" in
     let collectionDate := prop body "collectionDate" in
     let expiryDate := JDate (expiry_of collectionDate) in
     do bloodUnit <-
       Model_new Inventory
         (<["bloodType" := bloodType]>
            (<["donorId" := donorId]>
               (<["collectionDate" := collectionDate]>
                  {["expiryDate" := expiryDate]})));
     do bloodUnit <- save_new Inventory bloodUnit;
     do_ update_donor donorId collectionDate;
     json 200 (success "bloodUnit" bloodUnit))
    (fun error => json 400 (Failure error)).

Definition delete_inventory (id : string) : M response :=
  try_catch
    (do_ findByIdAndDelete Inventory (JStr id);
     json 200 (SuccessMessage "Blood unit deleted successfully"))
    (fun error => json 500 (Failure error)).

(** *** Requests *)

Definition get_requests : M response :=
  try_catch
    (do requests <- find_sorted Request "requestDate";
     json 200 (Docs requests))
    (fun error => json 500 (Failure error)).

Definition post_requests (body : jsobject) : M response :=
  try_catch
    (do request <- Model_new Request body;
     do request <- save_new Request request;
     json 200 (success "request" request))
    (fun error => json 400 (Failure error)).

Definition put_requests (id : string) (body : jsobject) : M response :=
  try_catch
    (do request <- findByIdAndUpdate Request (JStr id) body;
     json 200 (Success "request" request))
    (fun error => json 500 (Failure error)).

Definition delete_requests (id : string) : M response :=
  try_catch
    (do_ findByIdAndDelete Request (JStr id);
     json 200 (SuccessMessage "Request deleted successfully"))
    (fun error => json 500 (Failure error)).

(** *** Static files and the routing table *)

(** [res.sendFile(.../frontend/index.html)]: a missing file ends in
    the framework's 404. *)
Definition send_index : M response :=
  match frontend ["index.html"] with
  | Some content => ret (Response 200 (File content))
  | None => ret (Response 404 NoBody)
  end.

(** [express.static]: the file at the path, [index.html] for the
    root; nothing when there is no such file. *)
Definition serve_static (path : list string) : option string :=
  match path with
  | [] => frontend ["index.html"]
  | _ => frontend path
  end.

(** The routes under [/api], in the order they are registered. *)
Definition api_route (m : method) (path : list string) (body : jsobject)
  : option (M response) :=
  match m, path with
  | GET, [a; c] =>
      if seg a "api" && seg c "donors" then Some get_donors
      else if seg a "api" && seg c "inventory" then Some get_inventory
      else if seg a "api" && seg c "requests" then Some get_requests
      else None
  | POST, [a; c] =>
      if seg a "api" && seg c "donors" then Some (post_donors body)
      else if seg a "api" && seg c "inventory" then Some (post_inventory body)
      else if seg a "api" && seg c "requests" then Some (post_requests body)
      else None
  | DELETE, [a; c; id] =>
      if seg a "api" && seg c "donors" then Some (delete_donors id)
      else if seg a "api" && seg c "inventory" then Some (delete_inventory id)
      else if seg a "api" && seg c "requests" then Some (delete_requests id)
      else None
  | PUT, [a; c; id] =>
      if seg a "api" && seg c "requests" then Some (put_requests id body)
      else None
  | _, _ => None
  end.

(** A request that is not a [HEAD] or [OPTIONS] request, after the
    [cors] and [express.json] middleware. *)
Definition dispatch (m : method) (path : list string) (body : jsobject)
  : M response :=
  match (match m with GET => serve_static path | _ => None end) with
  | Some content => ret (Response 200 (File content))
  | None =>
      match api_route m path body with
      | Some handler => handler
      | None =>
          match m with
          | GET => send_index          (* app.get('/') and app.get('*') *)
          | _ => ret (Response 404 NoBody)
          end
      end
  end.

(** The whole application.  [cors()] answers every [OPTIONS] request
    itself; a [HEAD] request runs as the [GET] request it stands for
    and its response goes out without a body. *)
Definition app (r : request) : M response :=
  match req_method r with
  | OPTIONS => ret (Response 204 NoBody)
  | HEAD =>
      do res <- dispatch GET (req_path r) (req_body r);
      ret (Response (status res) NoBody)
  | m => dispatch m (req_path r) (req_body r)
  end.
End Server.

(** ** A concrete deployment

    A server running in UTC, whose [Date.parse] reads ISO calendar
    dates ([YYYY-MM-DD], midnight UTC), whose [Number] reads decimal
    integer literals, whose driver takes the 24-digit hexadecimal form
    of an identifier, and whose updates know the operators of MongoDB.
    It is what the handlers are run on in the examples below. *)
Module Sample.

Definition digit (c : ascii) : option Z :=
  let n := Z.of_N (N_of_ascii c) in
  if (48 <=? n) && (n <=? 57) then Some (n - 48) else None.

Fixpoint digits (acc : Z) (cs : list ascii) : option Z :=
  match cs with
  | [] => Some acc
  | c :: cs' => digit c ≫= fun d => digits (10 * acc + d) cs'
  end.

(** [Number(s)] for the empty string and for decimal integers. *)
Definition number_of_string (s : string) : option Z :=
  match list_ascii_of_string s with
  | [] => Some 0
  | "-"%char :: (_ :: _) as cs => Z.opp <$> digits 0 cs
  | "+"%char :: (_ :: _) as cs => digits 0 cs
  | cs => digits 0 cs
  end.

Definition days_in_month (y m : Z) : Z :=
  JSDate.MakeDay y m 1 - JSDate.MakeDay y (m - 1) 1.

(** [Date.parse] for the date-only ISO form. *)
Definition parse_iso_date (s : string) : option Z :=
  match list_ascii_of_string s with
  | [y1; y2; y3; y4; "-"%char; m1; m2; "-"%char; d1; d2] =>
      y ← digits 0 [y1; y2; y3; y4];
      m ← digits 0 [m1; m2];
      d ← digits 0 [d1; d2];
      if (1 <=? m) && (m <=? 12) && (1 <=? d) && (d <=? days_in_month y m)
      then Some (JSDate.MakeDate (JSDate.MakeDay y (m - 1) d) 0)
      else None
  | _ => None
  end.

Definition hex_digit (c : ascii) : option N :=
  let n := N_of_ascii c in
  if ((48 <=? n) && (n <=? 57))%N then Some (n - 48)%N
  else if ((97 <=? n) && (n <=? 102))%N then Some (n - 87)%N
  else if ((65 <=? n) && (n <=? 70))%N then Some (n - 55)%N
  else None.

Fixpoint hex (acc : N) (cs : list ascii) : option N :=
  match cs with
  | [] => Some acc
  | c :: cs' => hex_digit c ≫= fun d => hex (16 * acc + d)%N cs'
  end.

Definition objectid_of_hex (s : string) : option ObjectId :=
  if (String.length s =? 24)%nat then hex 0%N (list_ascii_of_string s)
  else None.

(** A stand-in for the text of a date; no handler of this application
    puts a date where a string is expected. *)
Definition date_text (tv : option Z) : string :=
  match tv with
  | Some t => pretty t
  | None => "Invalid Date"
  end.

Definition mongodb_operators : list string :=
  [ "$currentDate"; "$inc"; "$min"; "$max"; "$mul"; "$rename"; "$set";
    "$setOnInsert"; "$unset"; "$addToSet"; "$pop"; "$pull"; "$push"; "$bit" ].

(** The deployment, with [files] the content of the [frontend]
    directory. *)
Definition platform (files : list string -> option string) : Platform := {|
  LocalTZA := fun _ _ => 0;
  Date_parse := parse_iso_date;
  Date_toString := date_text;
  StringToNumber := number_of_string;
  ObjectId_of_string := objectid_of_hex;
  enum_allows_null := false;
  update_operator := fun k => bool_decide (k ∈ mongodb_operators);
  frontend := files
|}.

(** A [frontend] directory holding the entry document and a style
    sheet. *)
Definition files (path : list string) : option string :=
  match path with
  | ["index.html"] => Some "<html>Blood Bank</html>"
  | ["style.css"] => Some "body {}"
  | _ => None
  end.

(** The empty store, at noon on 1 March 2024. *)
Definition empty_world : world := World [] [] [] 1709294400000 1%N [] [].

Definition node : Platform := platform files.

(** The same deployment one hour ahead of UTC, with clocks that move one
    more hour ahead on 31 March 2024 at 01:00 UTC. *)
Definition clock_change : Z :=
  JSDate.MakeDate (JSDate.MakeDay 2024 2 31) 3600000.

Definition offset_with_change (t : Z) (isUTC : bool) : Z :=
  if isUTC
  then (if t <? clock_change then 3600000 else 7200000)
  else (if t <? clock_change + 7200000 then 3600000 else 7200000).

Definition node_with_clock_change : Platform := {|
  LocalTZA := offset_with_change;
  Date_parse := parse_iso_date;
  Date_toString := date_text;
  StringToNumber := number_of_string;
  ObjectId_of_string := objectid_of_hex;
  enum_allows_null := false;
  update_operator := fun k => bool_decide (k ∈ mongodb_operators);
  frontend := files
|}.

(** Two registered donors, the second one the more recent. *)
Definition ann : doc :=
  Doc 1%N (<["name" := BStr "Ann"]>
           (<["bloodType" := BStr "A+"]>
              (<["phone" := BStr "555-0101"]>
                 (<["email" := BStr "ann@example.org"]>
                    (<["address" := BStr "1 Main St"]>
                       (<["lastDonation" := BNull]>
                          (<["createdAt" := BDate 1706781600000]>
                             {["__v" := BNum 0]}))))))).

Definition bob : doc :=
  Doc 2%N (<["name" := BStr "Bob"]>
           (<["bloodType" := BStr "O-"]>
              (<["phone" := BStr "555-0102"]>
                 (<["email" := BStr "bob@example.org"]>
                    (<["address" := BStr "2 Main St"]>
                       (<["lastDonation" := BNull]>
                          (<["createdAt" := BDate 1706868000000]>
                             {["__v" := BNum 0]}))))))).

(** A pending request. *)
Definition request3 : doc :=
  Doc 3%N (<["patientName" := BStr "Cy"]>
           (<["bloodType" := BStr "A+"]>
              (<["unitsNeeded" := BNum 2]>
                 (<["priority" := BStr "High"]>
                    (<["hospital" := BStr "General"]>
                       (<["status" := BStr "Pending"]>
                          (<["requestDate" := BDate 1706954400000]>
                             {["__v" := BNum 0]}))))))).

(** A store with the two donors and the request, at noon on 1 March
    2024. *)
Definition clinic : world :=
  World [ann; bob] [] [request3] 1709294400000 4%N [] [].

(** A unit collected from Ann on 15 January 2024; the client also sends
    a status and an expiry date of its own. *)
Definition unit_body : jsobject :=
  <["bloodType" := JStr "A+"]>
    (<["donorId" := JStr "000000000000000000000001"]>
       (<["collectionDate" := JStr "2024-01-15"]>
          (<["status" := JStr "Used"]>
             {["expiryDate" := JStr "2030-01-01"]}))).

(** The unit the server makes of it: it expires on 19 February 2024. *)
Definition unit4 : doc :=
  Doc 4%N (<["bloodType" := BStr "A+"]>
           (<["donorId" := BStr "000000000000000000000001"]>
              (<["collectionDate" := BDate 1705276800000]>
                 (<["expiryDate" := BDate 1708300800000]>
                    (<["status" := BStr "Available"]>
                       (<["createdAt" := BDate 1709294400000]>
                          {["__v" := BNum 0]})))))).

(** The registration of a third donor. *)
Definition dee_body : jsobject :=
  <["name" := JStr "Dee"]>
    (<["bloodType" := JStr "B+"]>
       (<["phone" := JStr "555-0103"]>
          (<["email" := JStr "dee@example.org"]>
             {["address" := JStr "3 Main St"]}))).



End Sample.

(** ** Vocabulary of the properties *)

(** Whether the store answers the next operation, and the world once it
    has. *)
Definition answers (w : world) : bool :=
  match faults w with
  | true :: _ => false
  | _ => true
  end.

Definition spend (w : world) : world :=
  World (donors w) (inventory w) (requests w) (now w) (next_id w)
        (tail (faults w)) (unhandled w).

(** A list is a descending listing of a collection when it holds the
    documents of the collection, each as often as the collection does,
    every document before those with a smaller key. *)
Definition listing_of (key : string) (coll ds : list doc) : Prop :=
  ds ≡ₚ coll /\ StronglySorted (desc_by key) ds.

(** Whether the store answers its [n]-th coming operation (from 0). *)
Definition answers_at (n : nat) (w : world) : bool :=
  negb (nth n (faults w) false).

Section Vocabulary.
Context `{Platform}.

(** The instant whose local wall-clock reading is that of [D], [n]
    calendar days on. *)
Definition add_calendar_days (n D : Z) : Z :=
  JSDate.UTC LocalTZA (JSDate.LocalTime LocalTZA D + n * JSDate.msPerDay).

(** A document as Mongoose holds it once read from the store. *)
Definition hydrate (m : model) (d : doc) : newdoc :=
  NewDoc (IdOk (doc_id d))
         (map (fun p => (p, PVal (doc_fields d !! p_name p))) (schema_of m)).

(** A stored document that passes the validation of its schema. *)
Definition valid_doc (m : model) (d : doc) : bool :=
  bool_decide (validate (hydrate m d) = []).

Definition with_last_donation (t : Z) (d : doc) : doc :=
  Doc (doc_id d) (<["lastDonation" := BDate t]> (doc_fields d)).

(** The donor whose [lastDonation] an inventory creation refreshes: the
    one [donorId] identifies, provided the store answers the lookup and
    the save (its operations [n] and [n + 1] from now) and the donor's
    document passes validation. *)
Definition donor_to_refresh (n : nat) (donorId : jsval) (w : world)
  : option doc :=
  match castObjectId donorId with
  | IdOk o =>
      if answers_at n w && answers_at (S n) w then
        match find_id o (donors w) with
        | Some d => if valid_doc Donor d then Some d else None
        | None => None
        end
      else None
  | _ => None
  end.

(** The rejection of the save of that donor, when there is one: the
    document found does not pass validation, or the store does not
    answer the save. *)
Definition save_rejection (n : nat) (donorId : jsval) (w : world)
  : option error :=
  match castObjectId donorId with
  | IdOk o =>
      if answers_at n w then
        match find_id o (donors w) with
        | Some d =>
            if valid_doc Donor d then
              if answers_at (S n) w then None else Some Operational
            else Some (ValidationError (validate (hydrate Donor d)))
        | None => None
        end
      else None
  | _ => None
  end.

(** The document [new Inventory({ bloodType, donorId, collectionDate,
    expiryDate })] of the inventory handler. *)
Definition new_unit (body : jsobject) (w : world) : newdoc :=
  NewDoc (IdOk (next_id w))
    (map (fun p =>
            (p, init_path (now w) p
                  (prop (<["bloodType" := prop body "bloodType"]>
                           (<["donorId" := prop body "donorId"]>
                              (<["collectionDate" := prop body "collectionDate"]>
                                 {["expiryDate" :=
                                     JDate (expiry_of
                                              (prop body "collectionDate"))]})))
                        (p_name p))))
         inventorySchema).

(** A string that Mongoose reads as a number of milliseconds where the
    [Date] constructor would parse it as a date. *)
Definition reads_as_milliseconds (v : jsval) : bool :=
  match v with
  | JStr s =>
      match StringToNumber s with
      | Some n => (275761 <=? n) || (n <? -271820)
      | None => false
      end
  | _ => false
  end.

End Vocabulary.

Definition is_failure (res : response) : bool :=
  match res_payload res with
  | Failure _ => true
  | _ => false
  end.

(** A response shows a document: it carries the success envelope of a
    creation with the fields of the document, and with its identifier
    or else [null]. *)
Definition shows (res : response) (d : doc) : Prop :=
  exists key,
    res_payload res = Success key (Some d)
    \/ res_payload res = SuccessNullId key (doc_fields d).

Section Handlers.
Context `{Platform}.

(** The delete handler of each collection and the message it answers
    with. *)
Definition delete_handler (m : model) : string -> M response :=
  match m with
  | Donor => delete_donors
  | Inventory => delete_inventory
  | Request => delete_requests
  end.

Definition deleted_message (m : model) : string :=
  match m with
  | Donor => "Donor deleted successfully"
  | Inventory => "Blood unit deleted successfully"
  | Request => "Request deleted successfully"
  end.

(** The status with which the handlers of a method report a failure. *)
Definition failure_status (m : method) : Z :=
  match m with
  | POST => 400
  | _ => 500
  end.
End Handlers.

(** The cast of a value that is there. *)
Definition cast_present `{Platform} (t : stype) (v : jsval) : option bval :=
  match v with
  | JUndefined => None
  | _ => cast t v
  end.



(** A computation that, when it returns, returns a response other than
    the failure envelope. *)
Definition returns_plain (m : M response) : Prop :=
  forall w res w', m w = (inr res, w') -> is_failure res = false.

Section DonorVocabulary.
Context `{Platform}.








End DonorVocabulary.

(** ** Vocabulary of the properties of the store as a whole *)

Global Instance model_eq_dec : EqDecision model.
Proof. solve_decision. Defined.

(** The identifiers of a collection are those of distinct documents, as
    the store's index on [_id] has it. *)
Definition unique_ids (ds : list doc) : Prop := NoDup (map doc_id ds).

(** How a collection can differ after a request: not at all, by one
    document appended under an identifier that was free, by the removal
    of the document under an identifier, or by one document replaced
    under its own identifier.  [ins] says what the appended document is
    like and [upd] how the replacement relates to the replaced. *)
Inductive change (ins : doc -> Prop) (upd : doc -> doc -> Prop)
    (ds : list doc) : list doc -> Prop :=
| change_none : change ins upd ds ds
| change_insert (d : doc) :
    find_id (doc_id d) ds = None -> ins d ->
    change ins upd ds (ds ++ [d])
| change_remove (o : ObjectId) : change ins upd ds (remove_id o ds)
| change_replace (d d' : doc) :
    find_id (doc_id d) ds = Some d -> doc_id d' = doc_id d -> upd d d' ->
    change ins upd ds (replace_id (doc_id d) d' ds).

Section StoreVocabulary.
Context `{Platform}.

(** The create and list handlers of each collection. *)
Definition post_handler (m : model) : jsobject -> M response :=
  match m with
  | Donor => post_donors
  | Inventory => post_inventory
  | Request => post_requests
  end.

Definition get_handler (m : model) : M response :=
  match m with
  | Donor => get_donors
  | Inventory => get_inventory
  | Request => get_requests
  end.

(** The document that the create handler of a collection builds from a
    body: the inventory handler from the three properties it reads, the
    other two from the body as it is. *)
Definition new_doc (m : model) (body : jsobject) (w : world) : newdoc :=
  match m with
  | Inventory => new_unit body w
  | _ =>
      NewDoc match prop body "_id" with
             | JUndefined => IdOk (next_id w)
             | v => castObjectId v
             end
             (map (fun p => (p, init_path (now w) p (prop body (p_name p))))
                  (schema_of m))
  end.

(** A unit as the inventory handler makes them: valid for the schema,
    with status [Available]. *)
Definition fresh_unit (u : doc) : Prop :=
  valid_doc Inventory u = true
  /\ doc_fields u !! "status" = Some (BStr "Available").

(** A donor whose [lastDonation] was set to a date, the rest kept. *)
Definition refreshed (d d' : doc) : Prop :=
  exists t, d' = with_last_donation t d.

(** A request with some of its fields overwritten. *)
Definition overwritten (d d' : doc) : Prop :=
  exists fs : gmap string bval, d' = Doc (doc_id d) (fs ∪ doc_fields d).

(** What one request can do to the three collections. *)
Definition request_step (w w' : world) : Prop :=
  change (fun d => valid_doc Donor d = true) refreshed (donors w) (donors w')
  /\ change fresh_unit (fun _ _ => False) (inventory w) (inventory w')
  /\ change (fun d => valid_doc Request d = true) overwritten
            (requests w) (requests w').
End StoreVocabulary.

(** ** More requests for the sample deployment *)
Module Cases.
Import Sample.

(** A request for three units, urgent. *)
Definition eve_body : jsobject :=
  <["patientName" := JStr "Eve"]>
    (<["bloodType" := JStr "O-"]>
       (<["unitsNeeded" := JNum 3]>
          (<["priority" := JStr "Critical"]>
             {["hospital" := JStr "General"]}))).

(** The clinic with a store that does not answer. *)
Definition clinic_down : world :=
  World [ann; bob] [] [request3] 1709294400000 4%N [true] [].

(** The clinic with the unit collected from Ann in its inventory. *)
Definition clinic_with_unit : world :=
  World [ann; bob] [unit4] [request3] 1709294400000 5%N [] [].

Definition post (path : list string) (body : jsobject) : request :=
  Request_ POST path body.

(** Dee as the clinic registers her, and Eve's request as it records
    it. *)
Definition dee : doc :=
  Doc 4%N (<["name" := BStr "Dee"]>
             (<["bloodType" := BStr "B+"]>
                (<["phone" := BStr "555-0103"]>
                   (<["email" := BStr "dee@example.org"]>
                      (<["address" := BStr "3 Main St"]>
                         (<["lastDonation" := BNull]>
                            (<["createdAt" := BDate 1709294400000]>
                               {["__v" := BNum 0]}))))))).

Definition eve : doc :=
  Doc 4%N (<["patientName" := BStr "Eve"]>
             (<["bloodType" := BStr "O-"]>
                (<["unitsNeeded" := BNum 3]>
                   (<["priority" := BStr "Critical"]>
                      (<["hospital" := BStr "General"]>
                         (<["status" := BStr "Pending"]>
                            (<["requestDate" := BDate 1709294400000]>
                               {["__v" := BNum 0]}))))))).

(** The pending request once fulfilled. *)
Definition request3_fulfilled : doc :=
  Doc 3%N (<["status" := BStr "Fulfilled"]> (doc_fields request3)).

End Cases.

(** * Properties *)

(** ** The calendar decomposition *)
Module JSDateFacts.
Import JSDate.


Ltac div_facts a b :=
  pose proof (Z.div_mod a b ltac:(lia));
  pose proof (Z.mod_pos_bound a b ltac:(lia)).

(** A year is 365.2425 days long on average, and [DayFromYear] stays
    within two days of that line. *)
Lemma DayFromYear_mean (k : Z) :
  146097 * k - 800 <= 400 * DayFromYear (1970 + k) <= 146097 * k + 800.
Proof.
  unfold DayFromYear.
  div_facts (1970 + k - 1969) 4.
  div_facts (1970 + k - 1901) 100.
  div_facts (1970 + k - 1601) 400.
  lia.
Qed.

Lemma YearFromTime_spec (t : Z) :
  DayFromYear (YearFromTime t) <= Day t < DayFromYear (YearFromTime t + 1).
Proof.
  unfold YearFromTime.
  set (d := Day t). clearbody d.
  set (k := d * 400 / 146097).
  assert (Hk : 146097 * k <= 400 * d < 146097 * k + 146097).
  { subst k. div_facts (d * 400) 146097. lia. }
  clearbody k.
  pose proof (DayFromYear_mean (k - 1)) as Hm.
  pose proof (DayFromYear_mean (k + 2)) as Hp.
  replace (1970 + (k - 1)) with (1970 + k - 1) in Hm by lia.
  replace (1970 + (k + 2)) with (1970 + k + 1 + 1) in Hp by lia.
  destruct (Z.ltb_spec d (DayFromYear (1970 + k))) as [H1|H1].
  - replace (1970 + k - 1 + 1) with (1970 + k) by lia. lia.
  - destruct (Z.leb_spec (DayFromYear (1970 + k + 1)) d) as [H2|H2]; lia.
Qed.

(** [YearFromTime] is the only year whose span contains the day. *)
Lemma DayFromYear_step (y : Z) :
  DayFromYear (y + 1) = DayFromYear y + DaysInYear y.
Proof.
  unfold DayFromYear, DaysInYear, isLeapYear.
  div_facts (y - 1969) 4. div_facts (y + 1 - 1969) 4.
  div_facts (y - 1901) 100. div_facts (y + 1 - 1901) 100.
  div_facts (y - 1601) 400. div_facts (y + 1 - 1601) 400.
  div_facts y 4. div_facts y 100. div_facts y 400.
  destruct (Z.eqb_spec (y mod 4) 0); simpl;
    [destruct (Z.eqb_spec (y mod 100) 0); simpl;
       [destruct (Z.eqb_spec (y mod 400) 0); simpl|]|]; lia.
Qed.

(** [DayFromYear] grows with the year, so that [YearFromTime t] is the
    largest year that starts no later than [t]. *)
Lemma DayFromYear_mono (a b : Z) : a <= b -> DayFromYear a <= DayFromYear b.
Proof.
  intros Hab. unfold DayFromYear.
  div_facts (a - 1969) 4. div_facts (b - 1969) 4.
  div_facts (a - 1901) 100. div_facts (b - 1901) 100.
  div_facts (a - 1601) 400. div_facts (b - 1601) 400.
  lia.
Qed.

Lemma YearFromTime_largest (t y : Z) :
  TimeFromYear y <= t <-> y <= YearFromTime t.
Proof.
  pose proof (YearFromTime_spec t) as [Hlo Hhi].
  unfold TimeFromYear.
  assert (Hd : msPerDay * DayFromYear y <= t <-> DayFromYear y <= Day t).
  { unfold Day, msPerDay. div_facts t 86400000. lia. }
  rewrite Hd. split.
  - intros Hy. destruct (Z.le_gt_cases y (YearFromTime t)) as [|Hgt]; [done|].
    pose proof (DayFromYear_mono (YearFromTime t + 1) y ltac:(lia)). lia.
  - intros Hy. pose proof (DayFromYear_mono y (YearFromTime t) Hy). lia.
Qed.

Lemma YearFromTime_unique (t y : Z) :
  DayFromYear y <= Day t < DayFromYear (y + 1) -> YearFromTime t = y.
Proof.
  intros [Hlo Hhi].
  pose proof (YearFromTime_spec t) as [Hlo' Hhi'].
  destruct (Z.lt_trichotomy (YearFromTime t) y) as [Hlt|[Heq|Hgt]]; [|done|].
  - pose proof (DayFromYear_mono (YearFromTime t + 1) y ltac:(lia)). lia.
  - pose proof (DayFromYear_mono (y + 1) (YearFromTime t) ltac:(lia)). lia.
Qed.

Lemma DayWithinYear_range (t : Z) :
  0 <= DayWithinYear t < DaysInYear (YearFromTime t).
Proof.
  unfold DayWithinYear.
  pose proof (YearFromTime_spec t) as H.
  rewrite DayFromYear_step in H. lia.
Qed.

Lemma InLeapYear_DaysInYear (t : Z) :
  DaysInYear (YearFromTime t) = 365 + InLeapYear t.
Proof. unfold DaysInYear, InLeapYear. by destruct (isLeapYear _). Qed.

Lemma MonthFromTime_range (t : Z) : 0 <= MonthFromTime t <= 11.
Proof.
  unfold MonthFromTime.
  repeat (match goal with |- context [?a <? ?b] => destruct (a <? b) end);
    lia.
Qed.

(** The date within the month is the day within the year counted from
    the first of the month. *)
Lemma DateFromTime_monthStart (t : Z) :
  DateFromTime t
  = DayWithinYear t - monthStart (InLeapYear t) (MonthFromTime t) + 1.
Proof.
  unfold DateFromTime.
  pose proof (MonthFromTime_range t) as Hm.
  generalize dependent (MonthFromTime t). intros m Hm.
  assert (Hc : m = 0 \/ m = 1 \/ m = 2 \/ m = 3 \/ m = 4 \/ m = 5 \/ m = 6
               \/ m = 7 \/ m = 8 \/ m = 9 \/ m = 10 \/ m = 11) by lia.
  repeat (destruct Hc as [->|Hc]; [simpl; lia|]).
  subst m. simpl. lia.
Qed.

(** Rebuilding the day number from the calendar fields of [t], with
    the date moved by [n], moves the day number by [n]. *)
Lemma MakeDay_shift (t n : Z) :
  MakeDay (YearFromTime t) (MonthFromTime t) (DateFromTime t + n)
  = Day t + n.
Proof.
  unfold MakeDay.
  pose proof (MonthFromTime_range t) as Hm.
  rewrite (Z.div_small (MonthFromTime t) 12) by lia.
  rewrite (Z.mod_small (MonthFromTime t) 12) by lia.
  rewrite Z.add_0_r, DateFromTime_monthStart.
  unfold DayWithinYear, InLeapYear. lia.
Qed.

Lemma Day_TimeWithinDay (t : Z) : MakeDate (Day t) (TimeWithinDay t) = t.
Proof.
  unfold MakeDate, Day, TimeWithinDay.
  pose proof (Z.div_mod t msPerDay ltac:(unfold msPerDay; lia)). lia.
Qed.

(** The date is a day of the month: between 1 and 31. *)
Lemma DateFromTime_range (t : Z) : 1 <= DateFromTime t <= 31.
Proof.
  rewrite DateFromTime_monthStart.
  pose proof (DayWithinYear_range t) as Hd.
  rewrite InLeapYear_DaysInYear in Hd.
  assert (Hl : InLeapYear t = 0 \/ InLeapYear t = 1).
  { unfold InLeapYear. destruct (isLeapYear _); auto. }
  unfold MonthFromTime.
  repeat (match goal with
          | |- context [?a <? ?b] => destruct (Z.ltb_spec a b)
          end; [simpl; lia|]).
  simpl. lia.
Qed.

(** [MakeDay] counts from the day the specification asks for: the one
    whose year, month and date are [y], [m] and 1. *)
Lemma MakeDay_first_of_month (y m : Z) :
  0 <= m <= 11 ->
  let t := MakeDate (MakeDay y m 1) 0 in
  YearFromTime t = y /\ MonthFromTime t = m /\ DateFromTime t = 1.
Proof.
  intros Hm t.
  assert (Hday : Day t = DayFromYear y + monthStart (if isLeapYear y then 1 else 0) m).
  { subst t. unfold MakeDate, MakeDay, Day.
    rewrite (Z.div_small m 12), (Z.mod_small m 12), Z.add_0_r by lia.
    rewrite Z.add_0_r, Z.div_mul by (unfold msPerDay; lia). lia. }
  assert (Hms : 0 <= monthStart (if isLeapYear y then 1 else 0) m < DaysInYear y).
  { unfold DaysInYear.
    assert (Hc : m = 0 \/ m = 1 \/ m = 2 \/ m = 3 \/ m = 4 \/ m = 5 \/ m = 6
                 \/ m = 7 \/ m = 8 \/ m = 9 \/ m = 10 \/ m = 11) by lia.
    destruct (isLeapYear y);
      repeat (destruct Hc as [->|Hc]; [simpl; lia|]); subst m; simpl; lia. }
  assert (Hy : YearFromTime t = y).
  { apply YearFromTime_unique. rewrite DayFromYear_step. lia. }
  assert (Hw : DayWithinYear t = monthStart (if isLeapYear y then 1 else 0) m).
  { unfold DayWithinYear. rewrite Hy. lia. }
  assert (Hmonth : MonthFromTime t = m).
  { unfold MonthFromTime, InLeapYear. rewrite Hw, Hy.
    assert (Hc : m = 0 \/ m = 1 \/ m = 2 \/ m = 3 \/ m = 4 \/ m = 5 \/ m = 6
                 \/ m = 7 \/ m = 8 \/ m = 9 \/ m = 10 \/ m = 11) by lia.
    destruct (isLeapYear y);
      repeat (destruct Hc as [->|Hc]; [reflexivity|]); subst m; reflexivity. }
  split; [done|]. split; [done|].
  rewrite DateFromTime_monthStart, Hw, Hmonth. unfold InLeapYear.
  rewrite Hy. lia.
Qed.

Section LocalZoneFacts.
Variable LocalTZA : Z -> bool -> Z.

(** [d.setDate(d.getDate() + n)] moves the local wall-clock time by
    [n] whole days. *)
Lemma setDate_getDate (t n : Z) :
  setDate LocalTZA t (getDate LocalTZA t + n)
  = TimeClip (UTC LocalTZA (LocalTime LocalTZA t + n * msPerDay)).
Proof.
  unfold setDate, getDate.
  rewrite MakeDay_shift.
  f_equal. f_equal.
  rewrite <- (Day_TimeWithinDay (LocalTime LocalTZA t)) at 3.
  unfold MakeDate. lia.
Qed.
End LocalZoneFacts.

End JSDateFacts.

(** ** The sort order *)

Lemma string_le_total (s1 s2 : string) :
  string_le s1 s2 = true \/ string_le s2 s1 = true.
Proof.
  unfold string_le.
  destruct (OrdersEx.String_as_OT.compare_spec s1 s2) as [Heq|Hlt|Hgt];
    [left; done|left; done|right].
  unfold OrdersEx.String_as_OT.lt in Hgt. by rewrite Hgt.
Qed.

Lemma string_le_spec (s1 s2 : string) :
  string_le s1 s2 = true <-> s1 = s2 \/ OrdersEx.String_as_OT.lt s1 s2.
Proof.
  unfold string_le.
  destruct (OrdersEx.String_as_OT.compare_spec s1 s2) as [Heq|Hlt|Hgt].
  - split; [by left|done].
  - split; [by right|done].
  - split; [done|].
    intros [->|Hlt].
    + by apply (irreflexivity OrdersEx.String_as_OT.lt) in Hgt.
    + exfalso. apply (irreflexivity OrdersEx.String_as_OT.lt s1).
      by transitivity s2.
Qed.

Lemma string_le_trans (s1 s2 s3 : string) :
  string_le s1 s2 = true -> string_le s2 s3 = true -> string_le s1 s3 = true.
Proof.
  rewrite !string_le_spec.
  intros [->|H12] [->|H23]; auto.
  right. by transitivity s2.
Qed.

Lemma bson_le_total (a b : option bval) :
  bson_le a b = true \/ bson_le b a = true.
Proof.
  destruct a as [[| x | x | x]|], b as [[| y | y | y]|]; simpl;
    try (by left); try (by right); try apply string_le_total; lia.
Qed.

Lemma bson_le_trans (a b c : option bval) :
  bson_le a b = true -> bson_le b c = true -> bson_le a c = true.
Proof.
  destruct a as [[| x | x | x]|], b as [[| y | y | y]|],
           c as [[| z | z | z]|]; simpl; try done; try lia.
  apply string_le_trans.
Qed.

Global Instance desc_by_total key : Total (desc_by key).
Proof. intros d1 d2. unfold desc_by. apply bson_le_total. Qed.

Global Instance desc_by_trans key : Transitive (desc_by key).
Proof.
  intros d1 d2 d3 H12 H23. unfold desc_by in *.
  by apply (bson_le_trans _ (doc_fields d2 !! key)).
Qed.

(** ** The store *)


Lemma db_call_spec (w : world) :
  db_call w = (if answers w then inr tt else inl Operational, spend w).
Proof.
  destruct w as [ds us rs t n fs]. unfold db_call, answers, spend. simpl.
  by destruct fs as [|[] fs].
Qed.

Lemma docs_of_spend (m : model) (w : world) : docs_of m (spend w) = docs_of m w.
Proof. by destruct m. Qed.

Lemma docs_of_set_docs (m : model) (ds : list doc) (w : world) :
  docs_of m (set_docs m ds w) = ds.
Proof. by destruct m. Qed.

Lemma docs_of_set_docs_ne (m m' : model) (ds : list doc) (w : world) :
  m <> m' -> docs_of m' (set_docs m ds w) = docs_of m' w.
Proof. by destruct m, m'. Qed.

Ltac run :=
  unfold json, bind, try_catch, ret, throw, get_world, put_world in *.

Section Listings.
Context `{Platform}.

Lemma find_sorted_spec (m : model) (key : string) (w : world) :
  find_sorted m key w
  = (if answers w then inr (merge_sort (desc_by key) (docs_of m w))
     else inl Operational, spend w).
Proof.
  unfold find_sorted. run. rewrite db_call_spec.
  destruct (answers w); [|done]. by rewrite docs_of_spend.
Qed.

(** A listing answers with the sorted collection, or with a 500 when
    the store does not answer; the store is as it was either way. *)
Lemma listing_spec (m : model) (key : string) (w : world) :
  try_catch (do ds <- find_sorted m key; json 200 (Docs ds))
            (fun error => json 500 (Failure error)) w
  = (inr (if answers w
          then Response 200 (Docs (merge_sort (desc_by key) (docs_of m w)))
          else Response 500 (Failure Operational)), spend w).
Proof.
  unfold try_catch, bind at 1. rewrite find_sorted_spec.
  by destruct (answers w).
Qed.


Lemma merge_sort_listing (key : string) (coll : list doc) :
  listing_of key coll (merge_sort (desc_by key) coll).
Proof.
  split.
  - apply merge_sort_Permutation.
  - apply StronglySorted_merge_sort; apply _.
Qed.

(** C7: in every state of the store (that answers the query), the
    three listings return all the records of their collection,
    donors and inventory units by [createdAt] descending, requests by
    [requestDate] descending. *)
Theorem listings_sorted_descending (w : world) (Hup : answers w = true) :
  (exists ds, (get_donors w).1 = inr (Response 200 (Docs ds))
              /\ listing_of "createdAt" (donors w) ds)
  /\ (exists ds, (get_inventory w).1 = inr (Response 200 (Docs ds))
                 /\ listing_of "createdAt" (inventory w) ds)
  /\ (exists ds, (get_requests w).1 = inr (Response 200 (Docs ds))
                 /\ listing_of "requestDate" (requests w) ds).
Proof.
  unfold get_donors, get_inventory, get_requests.
  rewrite !listing_spec, Hup. simpl.
  repeat split; eexists; (split; [reflexivity|]);
    [apply (merge_sort_listing _ (donors w))
    |apply (merge_sort_listing _ (inventory w))
    |apply (merge_sort_listing _ (requests w))].
Qed.

(** C10: the three listings are read-only: whatever the state, and
    whether or not the store answers, each leaves the three
    collections as they were. *)
Theorem listings_read_only (w : world) (m : model) :
  docs_of m (get_donors w).2 = docs_of m w
  /\ docs_of m (get_inventory w).2 = docs_of m w
  /\ docs_of m (get_requests w).2 = docs_of m w.
Proof.
  unfold get_donors, get_inventory, get_requests.
  rewrite !listing_spec. simpl. by rewrite docs_of_spend.
Qed.
End Listings.

(** ** Mongoose operations *)
Section MongooseFacts.
Context `{Platform}.

Lemma answers_at_0 (w : world) : answers_at 0 w = answers w.
Proof. unfold answers_at, answers. by destruct (faults w) as [|[] ?]. Qed.

Lemma answers_at_spend (n : nat) (w : world) :
  answers_at n (spend w) = answers_at (S n) w.
Proof.
  unfold answers_at, spend. simpl.
  destruct (faults w) as [|f fs]; simpl; [by destruct n|done].
Qed.

Lemma answers_at_bump (n : nat) (w : world) :
  answers_at n (bump w) = answers_at n w.
Proof. done. Qed.

Lemma answers_at_set_docs (n : nat) (m : model) (ds : list doc) (w : world) :
  answers_at n (set_docs m ds w) = answers_at n w.
Proof. by destruct m. Qed.

Lemma find_id_Some (o : ObjectId) (ds : list doc) (d : doc) :
  find_id o ds = Some d -> doc_id d = o /\ d ∈ ds.
Proof.
  unfold find_id. intros Hf. apply find_some in Hf as [Hin Hd].
  apply bool_decide_eq_true in Hd. split; [done|].
  by apply list_elem_of_In.
Qed.

Lemma find_id_same (o : ObjectId) (ds : list doc) (d : doc) :
  find_id o ds = Some d -> find_id (doc_id d) ds = Some d.
Proof. intros Hf. by destruct (find_id_Some _ _ _ Hf) as [-> _]. Qed.

Lemma remove_id_None (o : ObjectId) (ds : list doc) :
  find_id o ds = None -> remove_id o ds = ds.
Proof.
  induction ds as [|d ds IH]; simpl; [done|].
  destruct (bool_decide (doc_id d = o)); [done|].
  intros Hf. by rewrite IH.
Qed.

Lemma find_id_replace_id (o : ObjectId) (d' : doc) (ds : list doc) :
  doc_id d' = o -> is_Some (find_id o ds) ->
  find_id o (replace_id o d' ds) = Some d'.
Proof.
  intros Hd'. unfold find_id.
  induction ds as [|d ds IH]; simpl; [by intros [? ?]|].
  destruct (bool_decide (doc_id d = o)) eqn:Hd; simpl.
  - by rewrite bool_decide_eq_true_2.
  - by rewrite Hd.
Qed.

Lemma find_id_replace_ne (o o' : ObjectId) (d' : doc) (ds : list doc) :
  doc_id d' = o -> o' <> o ->
  find_id o' (replace_id o d' ds) = find_id o' ds.
Proof.
  intros Hd' Hne. unfold find_id. induction ds as [|x ds IH]; simpl; [done|].
  destruct (bool_decide (doc_id x = o)) eqn:Hx; simpl.
  - apply bool_decide_eq_true in Hx.
    by rewrite !bool_decide_eq_false_2 by congruence.
  - by rewrite IH.
Qed.

Lemma map_doc_id_replace (o : ObjectId) (d' : doc) (ds : list doc) :
  doc_id d' = o -> map doc_id (replace_id o d' ds) = map doc_id ds.
Proof.
  intros Hd'. induction ds as [|x ds IH]; simpl; [done|].
  destruct (bool_decide (doc_id x = o)) eqn:Hx; simpl.
  - apply bool_decide_eq_true in Hx. congruence.
  - by rewrite IH.
Qed.

Lemma validate_nil (nd : newdoc) :
  validate nd = []
  <-> nd_id nd <> IdError
      /\ Forall (fun '(p, pv) => validate_path p pv = None) (nd_paths nd).
Proof.
  unfold validate. split.
  - intros Hv. apply app_eq_nil in Hv as [Hid Hps]. split.
    + by destruct (nd_id nd).
    + induction (nd_paths nd) as [|[p pv] ps IH]; [constructor|].
      simpl in Hps. destruct (validate_path p pv) eqn:E; [done|].
      constructor; auto.
  - intros [Hid Hps].
    destruct (nd_id nd); try done; simpl;
      (induction Hps as [|[p pv] ps Hp _ IH]; [done|]; simpl; by rewrite Hp).
Qed.

Lemma Model_new_spec (m : model) (obj : jsobject) (w : world) :
  Model_new m obj w
  = (inr (NewDoc
            match prop obj "_id" with
            | JUndefined => IdOk (next_id w)
            | v => castObjectId v
            end
            (map (fun p => (p, init_path (now w) p (prop obj (p_name p))))
                 (schema_of m))),
     bump w).
Proof. done. Qed.

Lemma docs_of_bump (m : model) (w : world) : docs_of m (bump w) = docs_of m w.
Proof. by destruct m. Qed.

(** The identifier under which a new document goes to the store, and
    the world once the identifier is there. *)
Lemma save_new_spec (m : model) (nd : newdoc) (w : world) :
  save_new m nd w
  = match validate nd with
    | (_ :: _) as errs => (inl (ValidationError errs), w)
    | [] =>
        let o := match nd_id nd with IdOk o => o | _ => next_id w end in
        let w1 := match nd_id nd with IdOk _ => w | _ => bump w end in
        if answers w then
          match find_id o (docs_of m w) with
          | Some _ => (inl DuplicateKey, spend w1)
          | None =>
              (inr (Saved match nd_id nd with IdOk o => Some o | _ => None end
                          (inserted_fields nd)),
               set_docs m (docs_of m w ++ [Doc o (inserted_fields nd)])
                        (spend w1))
          end
        else (inl Operational, spend w1)
    end.
Proof.
  unfold save_new. destruct (validate nd); [|done].
  destruct (nd_id nd); cbn zeta; run; unfold new_ObjectId;
    rewrite db_call_spec; rewrite ?docs_of_spend, ?docs_of_bump;
    change (answers (bump w)) with (answers w);
    (destruct (answers w); [|done]);
    rewrite ?docs_of_spend, ?docs_of_bump;
    by destruct (find_id _ (docs_of m w)).
Qed.

Lemma findByIdAndDelete_spec (m : model) (id : string) (w : world) :
  findByIdAndDelete m (JStr id) w
  = match ObjectId_of_string id with
    | None => (inl (CastError "_id"), w)
    | Some o =>
        if answers w
        then (inr (find_id o (docs_of m w)),
              set_docs m (remove_id o (docs_of m w)) (spend w))
        else (inl Operational, spend w)
    end.
Proof.
  unfold findByIdAndDelete, castObjectId. simpl.
  destruct (ObjectId_of_string id); [|done].
  run. rewrite db_call_spec. destruct (answers w); [|done].
  by rewrite docs_of_spend.
Qed.
End MongooseFacts.

(** ** Deleting *)
Section Deleting.
Context `{Platform}.

Lemma set_docs_same (m : model) (w : world) : set_docs m (docs_of m w) w = w.
Proof. by destruct m, w. Qed.

Lemma delete_handler_spec (m : model) (id : string) (w : world) :
  delete_handler m id w
  = match ObjectId_of_string id with
    | None => (inr (Response 500 (Failure (CastError "_id"))), w)
    | Some o =>
        if answers w
        then (inr (Response 200 (SuccessMessage (deleted_message m))),
              set_docs m (remove_id o (docs_of m w)) (spend w))
        else (inr (Response 500 (Failure Operational)), spend w)
    end.
Proof.
  destruct m; simpl;
    unfold delete_donors, delete_inventory, delete_requests;
    unfold try_catch, bind at 1; rewrite findByIdAndDelete_spec;
    destruct (ObjectId_of_string id); try done; by destruct (answers w).
Qed.

(** C4: deleting by a well-formed identifier that matches no stored
    record answers success with the deleted-successfully message of the
    collection and leaves the store as it was; the answer is the one a
    delete that removed a record gets. *)
Theorem delete_of_absent_record_succeeds
    (m : model) (id : string) (o : ObjectId) (w : world)
    (Hid : ObjectId_of_string id = Some o)
    (Habsent : find_id o (docs_of m w) = None)
    (Hup : answers w = true) :
  delete_handler m id w
  = (inr (Response 200 (SuccessMessage (deleted_message m))), spend w)
  /\ forall (w2 : world) (d : doc),
       find_id o (docs_of m w2) = Some d -> answers w2 = true ->
       (delete_handler m id w2).1 = (delete_handler m id w).1.
Proof.
  split.
  - rewrite delete_handler_spec, Hid, Hup.
    rewrite remove_id_None by done.
    by rewrite <- (docs_of_spend m w), set_docs_same.
  - intros w2 d _ Hup2.
    by rewrite !delete_handler_spec, Hid, Hup, Hup2.
Qed.
End Deleting.

(** ** Updating a request *)
Section Updating.
Context `{Platform}.

Lemma cast_set_None (p : spath) (v : jsval) :
  cast_set p v = None -> v = JUndefined.
Proof. unfold cast_set. destruct v; try done; by destruct (cast _ _). Qed.

Lemma cast_set_value (p : spath) (v : jsval) (b : bval) :
  cast_set p v = Some (inr b)
  -> cast_present (p_type p) v = Some b.
Proof.
  unfold cast_set, cast_present. destruct v; try done;
    destruct (cast _ _); intros; by simplify_eq.
Qed.



Lemma cast_errors_nil (sch : schema) (body : jsobject) (p : spath) :
  cast_errors (update_casts sch body) = [] -> p ∈ sch ->
  prop body (p_name p) <> JUndefined ->
  is_Some (cast (p_type p) (prop body (p_name p))).
Proof.
  unfold cast_errors, update_casts.
  induction sch as [|q sch IH]; intros Herrs Hp Hdef;
    [by apply elem_of_nil in Hp|].
  simpl in Herrs.
  destruct (cast_set q (prop body (p_name q))) as [[e|b]|] eqn:E;
    simpl in Herrs; [done| |].
  - apply elem_of_cons in Hp as [->|Hp]; [|by apply IH].
    apply cast_set_value in E. unfold cast_present in E.
    destruct (prop body (p_name q)); try done; by eexists.
  - apply elem_of_cons in Hp as [->|Hp]; [|by apply IH].
    by apply cast_set_None in E.
Qed.

(** A body that casts has no value that fails to cast, and sets what its
    schema paths cast to. *)
Lemma castUpdate_inr (sch : schema) (body : jsobject) (u : update) :
  castUpdate sch body = inr u ->
  cast_errors (update_casts sch body) = []
  /\ castObjectId (prop body "_id") <> IdError
  /\ u = Update match prop body "_id" with
                | JUndefined => None
                | v => Some (castObjectId v)
                end
                (cast_values (update_casts sch body)).
Proof.
  unfold castUpdate, update_errors.
  destruct (truthy _ && _); [done|].
  destruct (cast_errors _) as [|e es]; simpl.
  - destruct (castObjectId (prop body "_id")); simpl;
      destruct (invalid_operators body) as [|op [|op' ops]]; simpl;
      try done; by intros [= <-].
  - by destruct (es ++ _)%list.
Qed.


Lemma castUpdate_casts (sch : schema) (body : jsobject) (u : update)
    (p : spath) :
  castUpdate sch body = inr u -> p ∈ sch ->
  prop body (p_name p) <> JUndefined ->
  is_Some (cast (p_type p) (prop body (p_name p))).
Proof. intros (Herrs & _)%castUpdate_inr. by apply cast_errors_nil. Qed.

(** An update that would set a schema path to a value that does not
    cast is refused. *)
Lemma castUpdate_uncastable (sch : schema) (body : jsobject) (p : spath) :
  p ∈ sch -> prop body (p_name p) <> JUndefined ->
  cast (p_type p) (prop body (p_name p)) = None ->
  exists e, castUpdate sch body = inl e.
Proof.
  intros Hp Hdef Hc.
  destruct (castUpdate sch body) as [e|u] eqn:Hu; [by exists e|].
  destruct (castUpdate_casts _ _ _ p Hu Hp Hdef) as [b Hb]. congruence.
Qed.

Lemma findByIdAndUpdate_spec (m : model) (id : string) (body : jsobject)
    (w : world) :
  findByIdAndUpdate m (JStr id) body w
  = match ObjectId_of_string id with
    | None => (inl (CastError "_id"), w)
    | Some o =>
        match castUpdate (schema_of m) body with
        | inl e => (inl e, w)
        | inr u =>
            if answers w then
              match find_id o (docs_of m w) with
              | None => (inr None, spend w)
              | Some d =>
                  if keeps_id (doc_id d) u then
                    let d' := Doc (doc_id d) (u_set u ∪ doc_fields d) in
                    (inr (Some d'),
                     set_docs m (replace_id (doc_id d) d' (docs_of m w))
                              (spend w))
                  else (inl ImmutableField, spend w)
              end
            else (inl Operational, spend w)
        end
    end.
Proof.
  unfold findByIdAndUpdate, castObjectId. simpl.
  destruct (ObjectId_of_string id); [|done].
  destruct (castUpdate _ _); [done|].
  run. rewrite db_call_spec. destruct (answers w); [|done].
  rewrite docs_of_spend. destruct (find_id o (docs_of m w)); [|done].
  by destruct (keeps_id _ _).
Qed.

Lemma put_requests_spec (id : string) (body : jsobject) (w : world) :
  put_requests id body w
  = match ObjectId_of_string id with
    | None => (inr (Response 500 (Failure (CastError "_id"))), w)
    | Some o =>
        match castUpdate requestSchema body with
        | inl e => (inr (Response 500 (Failure e)), w)
        | inr u =>
            if answers w then
              match find_id o (requests w) with
              | None => (inr (Response 200 (Success "request" None)), spend w)
              | Some d =>
                  if keeps_id (doc_id d) u then
                    let d' := Doc (doc_id d) (u_set u ∪ doc_fields d) in
                    (inr (Response 200 (Success "request" (Some d'))),
                     set_docs Request (replace_id (doc_id d) d' (requests w))
                              (spend w))
                  else (inr (Response 500 (Failure ImmutableField)), spend w)
              end
            else (inr (Response 500 (Failure Operational)), spend w)
        end
    end.
Proof.
  unfold put_requests, try_catch, bind. rewrite findByIdAndUpdate_spec.
  simpl schema_of. simpl docs_of.
  destruct (ObjectId_of_string id); [|done].
  destruct (castUpdate _ _); [done|].
  destruct (answers w); [|done].
  destruct (find_id _ _); [|done].
  by destruct (keeps_id _ _).
Qed.

End Updating.

(** ** How failures are reported *)
Section Failures.
Context `{Platform}.

Lemma returns_plain_json (code : Z) (p : payload) :
  is_failure (Response code p) = false -> returns_plain (json code p).
Proof. intros Hp w res w'. run. by intros [= <- _]. Qed.

Lemma returns_plain_bind {A} (m : M A) (k : A -> M response) :
  (forall a, returns_plain (k a)) -> returns_plain (bind m k).
Proof.
  intros Hk w res w'. unfold bind.
  destruct (m w) as [[e|a] w1]; [done|]. apply Hk.
Qed.

(** A handler, [try { ... } catch (error) { res.status(code).json(...) }],
    always answers, and answers a failure with its own status only. *)
Lemma handler_answers (m : M response) (code : Z) (w : world) :
  returns_plain m ->
  exists res,
    (try_catch m (fun error => json code (Failure error)) w).1 = inr res
    /\ (is_failure res = true -> status res = code).
Proof.
  intros Hm. unfold try_catch.
  destruct (m w) as [[e|res] w'] eqn:E.
  - by exists (Response code (Failure e)).
  - exists res. split; [done|]. by rewrite (Hm _ _ _ E).
Qed.

Lemma returns_plain_success (code : Z) (key : string) (d : saved) :
  returns_plain (json code (success key d)).
Proof.
  apply returns_plain_json. unfold is_failure, success. cbn [res_payload].
  by destruct (sv_id d).
Qed.

Ltac plain :=
  repeat (apply returns_plain_bind; intros);
  first [apply returns_plain_success | by apply returns_plain_json].

Lemma api_route_answers (m : method) (path : list string) (body : jsobject)
    (handler : M response) (w : world) :
  api_route m path body = Some handler ->
  exists res,
    (handler w).1 = inr res
    /\ (is_failure res = true -> status res = failure_status m).
Proof.
  unfold api_route. intros Hr.
  repeat case_match; simplify_eq; simpl;
    apply handler_answers; plain.
Qed.

Lemma dispatch_answers (m : method) (path : list string) (body : jsobject)
    (w : world) :
  exists res,
    (dispatch m path body w).1 = inr res
    /\ (is_failure res = true -> status res = failure_status m).
Proof.
  unfold dispatch.
  destruct (match m with GET => _ | _ => _ end).
  { by eexists. }
  destruct (api_route m path body) as [handler|] eqn:Hr.
  { by apply (api_route_answers m path body). }
  unfold send_index.
  destruct m; try (by eexists); destruct (frontend _); by eexists.
Qed.

(** The routing table: each route of the API reaches its handler (a
    listing, unless a file of the frontend directory has its path). *)
Lemma routing_table (body : jsobject) (id : string) (w : world) :
  (frontend ["api"; "donors"] = None ->
   app (Request_ GET ["api"; "donors"] body) w = get_donors w)
  /\ (frontend ["api"; "inventory"] = None ->
      app (Request_ GET ["api"; "inventory"] body) w = get_inventory w)
  /\ (frontend ["api"; "requests"] = None ->
      app (Request_ GET ["api"; "requests"] body) w = get_requests w)
  /\ app (Request_ POST ["api"; "donors"] body) w = post_donors body w
  /\ app (Request_ POST ["api"; "inventory"] body) w = post_inventory body w
  /\ app (Request_ POST ["api"; "requests"] body) w = post_requests body w
  /\ app (Request_ PUT ["api"; "requests"; id] body) w = put_requests id body w
  /\ app (Request_ DELETE ["api"; "donors"; id] body) w = delete_donors id w
  /\ app (Request_ DELETE ["api"; "inventory"; id] body) w
     = delete_inventory id w
  /\ app (Request_ DELETE ["api"; "requests"; id] body) w
     = delete_requests id w.
Proof.
  unfold app, dispatch. cbn [req_method req_path req_body serve_static].
  repeat split; try done; by intros ->.
Qed.

(** Every request is answered, and a failure envelope goes out with the
    status of its method. *)
Lemma app_answers (r : request) (w : world) :
  exists res,
    (app r w).1 = inr res
    /\ forall e, res_payload res = Failure e ->
                 status res = failure_status (req_method r).
Proof.
  unfold app.
  destruct (req_method r) eqn:Hm;
    try (destruct (dispatch_answers (req_method r) (req_path r) (req_body r) w)
           as (res & Hres & Hst);
         rewrite Hm in Hres, Hst; exists res; split; [done|];
         intros e He; apply Hst; unfold is_failure; by rewrite He).
  - destruct (dispatch_answers GET (req_path r) (req_body r) w)
      as (res & Hres & _).
    unfold bind. destruct (dispatch GET _ _ w) as [[e|res'] w'];
      simpl in *; [done|]. by eexists.
  - by eexists.
Qed.

(** C8, as the code has it: a GET (or HEAD) request whose path is
    neither a file of the frontend directory nor a route of the API
    gets what the same request to the root path gets: the entry
    document with status 200, when the directory has it. *)
Theorem unmatched_get_serves_entry_document
    (m : method) (path : list string) (body : jsobject) (w : world)
    (Hm : m = GET \/ m = HEAD)
    (Hstatic : serve_static path = None)
    (Hroute : api_route GET path body = None) :
  app (Request_ m path body) w = app (Request_ m [] body) w
  /\ forall content,
       frontend ["index.html"] = Some content ->
       app (Request_ GET path body) w = (inr (Response 200 (File content)), w).
Proof.
  assert (Hget : dispatch GET path body w = dispatch GET [] body w).
  { unfold dispatch. rewrite Hstatic, Hroute. simpl. unfold send_index.
    by destruct (frontend ["index.html"]). }
  split.
  - destruct Hm as [-> | ->]; unfold app, bind;
      cbn [req_method req_path req_body]; by rewrite Hget.
  - intros content Hc. unfold app. cbn [req_method req_path req_body].
    rewrite Hget. unfold dispatch. simpl. by rewrite Hc.
Qed.
End Failures.

(** ** Creating an inventory unit *)
Section Inventory.
Context `{Platform}.

Lemma update_donor_returns (donorId collectionDate : jsval) (w : world) :
  (update_donor donorId collectionDate w).1 = inr tt.
Proof.
  unfold update_donor, try_catch, bind.
  destruct (findOne_id Donor donorId w) as [[e|[d|]] w1]; try done.
  unfold detached. by destruct (save_loaded _ _ _) as [[e|[]] w2].
Qed.

Lemma assign_lastDonation (d : doc) (collectionDate : jsval) (t : Z) :
  cast_present SDate collectionDate = Some (BDate t) ->
  assign Donor (Loaded d []) "lastDonation" collectionDate
  = Loaded d [(SPath "lastDonation" SDate false DefaultNull None,
               PVal (Some (BDate t)))].
Proof.
  unfold assign, cast_present. simpl.
  destruct collectionDate; try done; simpl; by intros ->.
Qed.

(** Saving a donor whose [lastDonation] was assigned a date. *)
Lemma save_refreshed (d : doc) (t : Z) (w : world) :
  find_id (doc_id d) (donors w) = Some d ->
  save_loaded Donor
    (Loaded d [(SPath "lastDonation" SDate false DefaultNull None,
                PVal (Some (BDate t)))]) w
  = if valid_doc Donor d then
      if answers w
      then (inr tt,
            set_docs Donor
              (replace_id (doc_id d) (with_last_donation t d) (donors w))
              (spend w))
      else (inl Operational, spend w)
    else (inl (ValidationError (validate (hydrate Donor d))), w).
Proof.
  intros Hfind. unfold save_loaded, valid_doc. cbn [ld_doc ld_delta].
  change (validate (NewDoc _ _)) with (validate (hydrate Donor d)).
  destruct (validate (hydrate Donor d)) as [|e es] eqn:Hv.
  - rewrite bool_decide_eq_true_2 by done.
    run. rewrite db_call_spec. destruct (answers w); [|done].
    rewrite docs_of_spend. change (docs_of Donor w) with (donors w).
    by rewrite Hfind.
  - by rewrite bool_decide_eq_false_2.
Qed.

(** What the donor update does to the store. *)
Lemma update_donor_spec (donorId collectionDate : jsval) (t : Z) (w : world) :
  cast_present SDate collectionDate = Some (BDate t) ->
  inventory (update_donor donorId collectionDate w).2 = inventory w
  /\ requests (update_donor donorId collectionDate w).2 = requests w
  /\ donors (update_donor donorId collectionDate w).2
     = match donor_to_refresh 0 donorId w with
       | Some d => replace_id (doc_id d) (with_last_donation t d) (donors w)
       | None => donors w
       end.
Proof.
  intros Hc.
  unfold update_donor, donor_to_refresh, findOne_id, try_catch, bind, detached.
  rewrite answers_at_0.
  destruct (castObjectId donorId) as [|o|]; [| |done].
  { run. rewrite db_call_spec. by destruct (answers w). }
  run. rewrite db_call_spec.
  destruct (answers w); [|done]. simpl andb.
  rewrite docs_of_spend. change (docs_of Donor w) with (donors w).
  destruct (find_id o (donors w)) as [d|] eqn:Hfind.
  - rewrite (assign_lastDonation _ _ _ Hc), save_refreshed
      by (change (donors (spend w)) with (donors w); by eapply find_id_same).
    rewrite <- (answers_at_0 (spend w)), answers_at_spend.
    destruct (valid_doc Donor d); by destruct (answers_at 1 w).
  - by destruct (answers_at 1 w).
Qed.

(** What the donor update leaves for the runtime: the rejection of the
    save, and nothing else. *)
Lemma update_donor_unhandled (donorId collectionDate : jsval) (t : Z)
    (w : world) :
  cast_present SDate collectionDate = Some (BDate t) ->
  unhandled (update_donor donorId collectionDate w).2
  = (unhandled w
     ++ match save_rejection 0 donorId w with
        | Some e => [e]
        | None => []
        end)%list.
Proof.
  intros Hc.
  unfold update_donor, save_rejection, findOne_id, try_catch, bind, detached.
  rewrite answers_at_0.
  destruct (castObjectId donorId) as [|o|]; [| |by rewrite app_nil_r].
  { run. rewrite db_call_spec. destruct (answers w); by rewrite app_nil_r. }
  run. rewrite db_call_spec.
  destruct (answers w); [|by rewrite app_nil_r].
  rewrite docs_of_spend. change (docs_of Donor w) with (donors w).
  destruct (find_id o (donors w)) as [d|] eqn:Hfind; [|by rewrite app_nil_r].
  rewrite (assign_lastDonation _ _ _ Hc), save_refreshed
    by (change (donors (spend w)) with (donors w); by eapply find_id_same).
  rewrite <- (answers_at_0 (spend w)), answers_at_spend.
  destruct (valid_doc Donor d); [|done].
  destruct (answers_at 1 w); [|done]. by rewrite app_nil_r.
Qed.

Lemma post_inventory_spec (body : jsobject) (w : world) :
  post_inventory body w
  = let nd := new_unit body w in
    match validate nd with
    | (_ :: _) as errs =>
        (inr (Response 400 (Failure (ValidationError errs))), bump w)
    | [] =>
        if answers w then
          match find_id (next_id w) (inventory w) with
          | Some _ => (inr (Response 400 (Failure DuplicateKey)), spend (bump w))
          | None =>
              let unit := Doc (next_id w) (inserted_fields nd) in
              (inr (Response 200 (Success "bloodUnit" (Some unit))),
               (update_donor (prop body "donorId") (prop body "collectionDate")
                  (set_docs Inventory (inventory w ++ [unit])
                            (spend (bump w)))).2)
          end
        else (inr (Response 400 (Failure Operational)), spend (bump w))
    end.
Proof.
  unfold post_inventory, try_catch, bind.
  rewrite Model_new_spec.
  change (NewDoc _ _) with (new_unit body w).
  rewrite save_new_spec. cbn zeta.
  destruct (validate (new_unit body w)); [|done].
  change (nd_id (new_unit body w)) with (IdOk (next_id w)). cbn iota beta.
  change (answers (bump w)) with (answers w).
  destruct (answers w); [|done].
  change (docs_of Inventory (bump w)) with (inventory w).
  destruct (find_id (next_id w) (inventory w)); [done|].
  pose proof (update_donor_returns (prop body "donorId")
                (prop body "collectionDate")
                (set_docs Inventory
                   (inventory w
                    ++ [Doc (next_id w) (inserted_fields (new_unit body w))])
                   (spend (bump w)))) as Hu.
  cbn [fst snd] in *.
  by destruct (update_donor _ _ _) as [[e|[]] w'].
Qed.
(** A required path without a default validates only with a value of
    its type cast from what the object supplies. *)
Lemma required_path_valid (k : string) (t : stype) (e : option (list string))
    (time : Z) (v : jsval) :
  validate_path (SPath k t true NoDefault e)
                (init_path time (SPath k t true NoDefault e) v) = None ->
  exists b,
    init_path time (SPath k t true NoDefault e) v = PVal (Some b)
    /\ cast_present t v = Some b
    /\ checkRequired t (Some b) = true.
Proof.
  unfold init_path, validate_path, cast_present. simpl.
  destruct v; simpl; [by destruct t|..];
    (match goal with
     | |- context [cast t ?x] => destruct (cast t x) as [c|] eqn:Hc
     end; [|done]);
    (destruct (checkRequired t (Some c)) eqn:Hr; [|done]);
    intros _; by exists c.
Qed.

Lemma checkRequired_date (v : option bval) :
  checkRequired SDate v = true -> exists t, v = Some (BDate t).
Proof. destruct v as [[]|]; try done. by eexists. Qed.

Lemma checkRequired_string (v : option bval) :
  checkRequired SString v = true -> exists s, v = Some (BStr s) /\ s <> "".
Proof.
  destruct v as [[| | s |]|]; try done. simpl. intros Hs.
  exists s. split; [done|]. intros ->. done.
Qed.

(** The paths of a unit that passes validation. *)
Lemma new_unit_valid (body : jsobject) (w : world) :
  validate (new_unit body w) = [] ->
  exists s1 s2 t e,
    nd_paths (new_unit body w)
    = [ (SPath "bloodType" SString true NoDefault None, PVal (Some (BStr s1)));
        (SPath "donorId" SString true NoDefault None, PVal (Some (BStr s2)));
        (SPath "collectionDate" SDate true NoDefault None,
         PVal (Some (BDate t)));
        (SPath "expiryDate" SDate true NoDefault None, PVal (Some (BDate e)));
        (SPath "status" SString false (DefaultStr "Available")
               (Some ["Available"; "Used"; "Expired"]),
         PVal (Some (BStr "Available")));
        (SPath "createdAt" SDate false DefaultNow None,
         PVal (Some (BDate (now w))));
        (versionKey, PVal (Some (BNum 0))) ]
    /\ cast_present SDate (prop body "collectionDate") = Some (BDate t)
    /\ expiry_of (prop body "collectionDate") = Some e.
Proof.
  intros Hv. apply validate_nil in Hv as [_ Hps].
  unfold new_unit in *. cbn [nd_paths map inventorySchema] in *.
  change (prop _ "bloodType") with (prop body "bloodType") in *.
  change (prop _ "donorId") with (prop body "donorId") in *.
  change (prop _ "collectionDate") with (prop body "collectionDate") in *.
  change (prop _ "expiryDate")
    with (JDate (expiry_of (prop body "collectionDate"))) in *.
  change (prop _ "status") with JUndefined in *.
  change (prop _ "createdAt") with JUndefined in *.
  change (prop _ "__v") with JUndefined in *.
  cbn [p_name] in *.
  apply Forall_cons in Hps as [H1 Hps].
  apply Forall_cons in Hps as [H2 Hps].
  apply Forall_cons in Hps as [H3 Hps].
  apply Forall_cons in Hps as [H4 _].
  apply required_path_valid in H1 as (b1 & -> & _ & R1).
  apply required_path_valid in H2 as (b2 & -> & _ & R2).
  apply required_path_valid in H3 as (b3 & -> & C3 & R3).
  apply required_path_valid in H4 as (b4 & -> & C4 & R4).
  apply checkRequired_string in R1 as (s1 & [= ->] & _).
  apply checkRequired_string in R2 as (s2 & [= ->] & _).
  apply checkRequired_date in R3 as (t & [= ->]).
  apply checkRequired_date in R4 as (e & [= ->]).
  exists s1, s2, t, e. split; [done|]. split; [done|].
  change (BDate <$> expiry_of (prop body "collectionDate") = Some (BDate e))
    in C4.
  destruct (expiry_of _) as [e'|]; simpl in C4; by simplify_eq.
Qed.

(** A successful answer of the inventory handler: the unit it carries
    is the validated document, appended to the collection. *)
Lemma post_inventory_success (body : jsobject) (w : world) (res : response)
    (key : string) (unit : doc) :
  (post_inventory body w).1 = inr res ->
  res_payload res = Success key (Some unit) ->
  validate (new_unit body w) = []
  /\ unit = Doc (next_id w) (inserted_fields (new_unit body w))
  /\ (post_inventory body w).2
     = (update_donor (prop body "donorId") (prop body "collectionDate")
          (set_docs Inventory (inventory w ++ [unit]) (spend (bump w)))).2.
Proof.
  rewrite post_inventory_spec. cbn zeta.
  destruct (validate (new_unit body w)); [|by intros [= <-]].
  destruct (answers w); [|by intros [= <-]].
  destruct (find_id _ _); [by intros [= <-]|].
  cbn [fst snd]. intros [= <-]. cbn [res_payload]. by intros [= _ <-].
Qed.

Lemma TimeClip_Some (t t' : Z) : JSDate.TimeClip t = Some t' -> t' = t.
Proof. unfold JSDate.TimeClip. by case_match; intros; simplify_eq. Qed.

(** [new Date(D)], then [setDate(getDate() + 35)]. *)
Lemma expiry_of_spec (collectionDate : jsval) (e : Z) :
  expiry_of collectionDate = Some e ->
  exists D, Date_new collectionDate = Some D /\ e = add_calendar_days 35 D.
Proof.
  unfold expiry_of.
  destruct (Date_new collectionDate) as [D|]; [|done]. simpl.
  rewrite JSDateFacts.setDate_getDate. intros He%TimeClip_Some.
  by exists D.
Qed.

(** Where Mongoose does not take the string for milliseconds, it reads
    a date as the [Date] constructor does. *)
Lemma castDate_Date_new (v : jsval) (t : Z) :
  reads_as_milliseconds v = false ->
  cast_present SDate v = Some (BDate t) -> Date_new v = Some t.
Proof.
  unfold cast_present, reads_as_milliseconds. simpl.
  destruct v as [| |b|n|s|tv]; simpl; try done.
  - intros _. destruct (JSDate.TimeClip n); simpl; by intros; simplify_eq.
  - destruct s as [|c s]; [done|].
    destruct (StringToNumber (String c s)) as [n|].
    + intros ->.
      destruct (Date_parse (String c s) ≫= JSDate.TimeClip); simpl;
        by intros; simplify_eq.
    + intros _.
      destruct (Date_parse (String c s) ≫= JSDate.TimeClip); simpl;
        by intros; simplify_eq.
  - intros _. destruct tv; simpl; by intros; simplify_eq.
Qed.

(** With an offset from UTC that never changes, [n] calendar days are
    [n] times 24 hours. *)
Lemma add_calendar_days_fixed_offset (n D : Z) :
  (forall t b, LocalTZA t b = LocalTZA 0 true) ->
  add_calendar_days n D = D + n * JSDate.msPerDay.
Proof.
  intros Hz. unfold add_calendar_days, JSDate.UTC, JSDate.LocalTime.
  rewrite (Hz D true), (Hz _ false). lia.
Qed.

(** C1: the unit an inventory creation stores and returns has, for
    expiry date, the collection date [D] of the request plus 35
    calendar days (of the server's local time); [D] is also the
    collection date the unit stores, unless the request gave it as a
    string of milliseconds. *)
Theorem expiry_is_collection_plus_35_days
    (body : jsobject) (w : world) (res : response) (unit : doc)
    (Hres : (post_inventory body w).1 = inr res)
    (Hunit : res_payload res = Success "bloodUnit" (Some unit)) :
  exists D,
    Date_new (prop body "collectionDate") = Some D
    /\ doc_fields unit !! "expiryDate" = Some (BDate (add_calendar_days 35 D))
    /\ unit ∈ inventory (post_inventory body w).2
    /\ (reads_as_milliseconds (prop body "collectionDate") = false ->
        doc_fields unit !! "collectionDate" = Some (BDate D)).
Proof.
  destruct (post_inventory_success _ _ _ _ _ Hres Hunit) as (Hv & -> & Hw).
  destruct (new_unit_valid _ _ Hv) as (s1 & s2 & t & e & Hp & Hc & He).
  destruct (expiry_of_spec _ _ He) as (D & HD & ->).
  unfold inserted_fields.
  exists D. split; [done|]. split; [by rewrite Hp|]. split.
  - rewrite Hw.
    destruct (update_donor_spec (prop body "donorId") _ _
                (set_docs Inventory
                   (inventory w
                    ++ [Doc (next_id w) (inserted_fields (new_unit body w))])
                   (spend (bump w))) Hc) as (Hi & _).
    rewrite Hi. cbn [inventory set_docs]. apply elem_of_app. right.
    by apply list_elem_of_singleton.
  - intros Hms. rewrite (castDate_Date_new _ _ Hms Hc) in HD.
    simplify_eq. by rewrite Hp.
Qed.

Lemma donor_to_refresh_after_insert (donorId : jsval) (ds : list doc)
    (w : world) :
  donor_to_refresh 0 donorId (set_docs Inventory ds (spend (bump w)))
  = donor_to_refresh 1 donorId w.
Proof.
  unfold donor_to_refresh.
  by rewrite !answers_at_set_docs, !answers_at_spend, !answers_at_bump.
Qed.

Lemma save_rejection_after_insert (donorId : jsval) (ds : list doc)
    (w : world) :
  save_rejection 0 donorId (set_docs Inventory ds (spend (bump w)))
  = save_rejection 1 donorId w.
Proof.
  unfold save_rejection.
  by rewrite !answers_at_set_docs, !answers_at_spend, !answers_at_bump.
Qed.

(** What an inventory creation comes to.  It fails with a 400, having
    stored nothing; or it answers success with the unit it has appended
    to the inventory.  In the second case the donor the request names,
    when its lookup and its save go through, is found with the
    collection date for [lastDonation], every other donor as before; in
    every other case the donors are as they were.  An error of the
    lookup is dropped; the rejection of a save that fails is left to
    the runtime. *)
Lemma inventory_creation_outcome (body : jsobject) (w : world) :
  let w' := (post_inventory body w).2 in
  (exists e,
     (post_inventory body w).1 = inr (Response 400 (Failure e))
     /\ inventory w' = inventory w
     /\ donors w' = donors w
     /\ requests w' = requests w
     /\ unhandled w' = unhandled w)
  \/ (exists unit t,
        (post_inventory body w).1
        = inr (Response 200 (Success "bloodUnit" (Some unit)))
        /\ inventory w' = (inventory w ++ [unit])%list
        /\ requests w' = requests w
        /\ cast_present SDate (prop body "collectionDate") = Some (BDate t)
        /\ doc_fields unit !! "collectionDate" = Some (BDate t)
        /\ match donor_to_refresh 1 (prop body "donorId") w with
           | Some d =>
               find_id (doc_id d) (donors w') = Some (with_last_donation t d)
               /\ forall o, o <> doc_id d ->
                            find_id o (donors w') = find_id o (donors w)
           | None => donors w' = donors w
           end
        /\ unhandled w'
           = (unhandled w
              ++ match save_rejection 1 (prop body "donorId") w with
                 | Some e => [e]
                 | None => []
                 end)%list).
Proof.
  cbn zeta. rewrite post_inventory_spec. cbn zeta.
  destruct (validate (new_unit body w)) as [|err errs] eqn:Hv.
  2: { left. by eexists. }
  destruct (answers w).
  2: { left. by eexists. }
  destruct (find_id (next_id w) (inventory w)).
  { left. by eexists. }
  right.
  destruct (new_unit_valid _ _ Hv) as (s1 & s2 & t & e & Hp & Hc & He).
  destruct (update_donor_spec (prop body "donorId") _ _
              (set_docs Inventory
                 (inventory w
                  ++ [Doc (next_id w) (inserted_fields (new_unit body w))])
                 (spend (bump w))) Hc) as (Hi & Hr & Hd).
  pose proof (update_donor_unhandled (prop body "donorId") _ _
              (set_docs Inventory
                 (inventory w
                  ++ [Doc (next_id w) (inserted_fields (new_unit body w))])
                 (spend (bump w))) Hc) as Hu.
  eexists _, t. cbn [fst snd].
  split; [reflexivity|]. split; [by rewrite Hi|]. split; [by rewrite Hr|].
  split; [done|].
  split; [unfold inserted_fields; cbn [doc_fields]; by rewrite Hp|].
  split.
  - rewrite Hd, donor_to_refresh_after_insert. cbn [donors set_docs spend bump].
    destruct (donor_to_refresh 1 (prop body "donorId") w) as [d|] eqn:Hto;
      [|done].
    assert (Hf : find_id (doc_id d) (donors w) = Some d).
    { revert Hto. unfold donor_to_refresh. intros Hto.
      repeat case_match; simplify_eq; by eapply find_id_same. }
    split.
    + apply find_id_replace_id; [done|by eexists].
    + intros o Ho. by apply find_id_replace_ne.
  - by rewrite Hu, save_rejection_after_insert.
Qed.

(** The donor an inventory creation refreshed is found with the
    collection date for [lastDonation], its other fields as before. *)
Lemma refreshed_donor_lookup (donorId : jsval) (w : world) (d : doc) (t : Z) :
  donor_to_refresh 1 donorId w = Some d ->
  find_id (doc_id d)
          (replace_id (doc_id d) (with_last_donation t d) (donors w))
  = Some (with_last_donation t d)
  /\ doc_fields (with_last_donation t d) !! "lastDonation" = Some (BDate t)
  /\ forall k, k <> "lastDonation" ->
               doc_fields (with_last_donation t d) !! k = doc_fields d !! k.
Proof.
  unfold donor_to_refresh. intros Hr. split; [|split].
  - apply find_id_replace_id; [done|].
    repeat case_match; simplify_eq.
    exists d. by eapply find_id_same.
  - apply lookup_insert_eq.
  - intros k Hk. by apply lookup_insert_ne.
Qed.
End Inventory.

(** ** Creating a donor *)
Section Donors.
Context `{Platform}.




(** A creation, [new Model(body)] then [save]: the document goes to
    the store under its own identifier, or under the next one generated
    when its [_id] is [null]. *)
Lemma create_spec (m : model) (key : string) (body : jsobject) (w : world) :
  try_catch
    (do x <- Model_new m body;
     do x <- save_new m x;
     json 200 (success key x))
    (fun error => json 400 (Failure error)) w
  = let nd :=
      NewDoc match prop body "_id" with
             | JUndefined => IdOk (next_id w)
             | v => castObjectId v
             end
             (map (fun p => (p, init_path (now w) p (prop body (p_name p))))
                  (schema_of m)) in
    match validate nd with
    | (_ :: _) as errs =>
        (inr (Response 400 (Failure (ValidationError errs))), bump w)
    | [] =>
        let o := match nd_id nd with
                 | IdOk o => o
                 | _ => N.succ (next_id w)
                 end in
        let w1 := match nd_id nd with
                  | IdOk _ => bump w
                  | _ => bump (bump w)
                  end in
        if answers w then
          match find_id o (docs_of m w) with
          | Some _ => (inr (Response 400 (Failure DuplicateKey)), spend w1)
          | None =>
              (inr (Response 200
                      (success key
                         (Saved match nd_id nd with
                                | IdOk o => Some o
                                | _ => None
                                end
                                (inserted_fields nd)))),
               set_docs m (docs_of m w ++ [Doc o (inserted_fields nd)])
                        (spend w1))
          end
        else (inr (Response 400 (Failure Operational)), spend w1)
    end.
Proof.
  unfold try_catch, bind.
  rewrite Model_new_spec, save_new_spec. cbn zeta.
  destruct (validate _); [|done].
  cbn [nd_id nd_paths].
  change (answers (bump w)) with (answers w).
  rewrite docs_of_bump.
  change (next_id (bump w)) with (N.succ (next_id w)).
  destruct (match prop body "_id" with JUndefined => _ | _ => _ end);
    (destruct (answers w); [|done]);
    by destruct (find_id _ (docs_of m w)).
Qed.

Lemma post_donors_unfold (body : jsobject) (w : world) :
  post_donors body w
  = try_catch
      (do x <- Model_new Donor body;
       do x <- save_new Donor x;
       json 200 (success "donor" x))
      (fun error => json 400 (Failure error)) w.
Proof. done. Qed.

Lemma post_requests_spec (body : jsobject) (w : world) :
  post_requests body w
  = try_catch
      (do x <- Model_new Request body;
       do x <- save_new Request x;
       json 200 (success "request" x))
      (fun error => json 400 (Failure error)) w.
Proof. done. Qed.

Lemma fields_of_lookup_None (f : spath -> pathval) (sch : schema) (k : string) :
  k ∉ map p_name sch ->
  fields_of (map (fun p => (p, f p)) sch) !! k = None.
Proof.
  unfold fields_of. induction sch as [|q sch IH]; [done|].
  intros Hk. apply not_elem_of_cons in Hk as [Hq Hk]. simpl.
  destruct (f q) as [[b|]|]; simpl; [|by apply IH..].
  rewrite lookup_insert_ne by done. by apply IH.
Qed.

(** A document holds, at each path of its schema, the value the path had
    when it was built. *)
Lemma fields_of_lookup (f : spath -> pathval) (sch : schema) (p : spath) :
  NoDup (map p_name sch) -> p ∈ sch ->
  fields_of (map (fun p => (p, f p)) sch) !! p_name p
  = match f p with
    | PVal v => v
    | PCastError => None
    end.
Proof.
  unfold fields_of. induction sch as [|q sch IH]; intros Hnd Hp;
    [by apply elem_of_nil in Hp|].
  apply NoDup_cons in Hnd as [Hq Hnd]. simpl.
  apply elem_of_cons in Hp as [->|Hp].
  - destruct (f q) as [[b|]|]; simpl.
    + by rewrite lookup_insert_eq.
    + by apply (fields_of_lookup_None f).
    + by apply (fields_of_lookup_None f).
  - assert (Hne : p_name q <> p_name p).
    { intros Heq. apply Hq. rewrite Heq. apply list_elem_of_fmap.
      by exists p. }
    destruct (f q) as [[b|]|]; simpl; [|by apply IH..].
    rewrite lookup_insert_ne by done. by apply IH.
Qed.


End Donors.

(** ** The handlers at work on the sample deployment *)
Section Examples.
Import Sample.
#[local] Existing Instance node.

(** Runs of the handlers, by computation. *)

Example collect_from_ann :
  (post_inventory unit_body clinic).1
  = inr (Response 200 (Success "bloodUnit" (Some unit4)))
  /\ inventory (post_inventory unit_body clinic).2 = [unit4]
  /\ donors (post_inventory unit_body clinic).2
     = [with_last_donation 1705276800000 ann; bob].
Proof. by vm_compute. Qed.

(** The store fails on the donor's lookup: the unit stays, and the
    error is dropped. *)
Example collect_with_failing_lookup :
  let w := World [ann; bob] [] [] 1709294400000 4%N [false; true] [] in
  (post_inventory unit_body w).1
  = inr (Response 200 (Success "bloodUnit" (Some unit4)))
  /\ inventory (post_inventory unit_body w).2 = [unit4]
  /\ donors (post_inventory unit_body w).2 = [ann; bob]
  /\ unhandled (post_inventory unit_body w).2 = [].
Proof. by vm_compute. Qed.

Example list_donors : (get_donors clinic).1 = inr (Response 200 (Docs [bob; ann])).
Proof. by vm_compute. Qed.

Example register_dee :
  exists dee,
    (post_donors dee_body clinic).1
    = inr (Response 200 (Success "donor" (Some dee)))
    /\ donors (post_donors dee_body clinic).2 = [ann; bob; dee]
    /\ doc_id dee = 4%N
    /\ doc_fields dee !! "name" = Some (BStr "Dee")
    /\ doc_fields dee !! "lastDonation" = Some BNull
    /\ doc_fields dee !! "createdAt" = Some (BDate 1709294400000).
Proof. eexists. by vm_compute. Qed.

(** A number for a name is cast to a string and accepted. *)
Example register_with_numeric_name :
  exists d,
    (post_donors (<["name" := JNum 42]> dee_body) clinic).1
    = inr (Response 200 (Success "donor" (Some d)))
    /\ doc_fields d !! "name" = Some (BStr "42").
Proof. eexists. by vm_compute. Qed.

(** A number of twenty-two digits for a name is cast to a string as
    the language writes such a number. *)
Example register_with_large_numeric_name :
  exists d,
    (post_donors (<["name" := JNum (10 ^ 21)]> dee_body) clinic).1
    = inr (Response 200 (Success "donor" (Some d)))
    /\ doc_fields d !! "name" = Some (BStr "1e+21").
Proof. eexists. by vm_compute. Qed.

(** A registration with [null] for an identifier: the donor is stored
    under an identifier of the driver's, and the answer shows [null]. *)
Example register_with_null_id :
  exists fields,
    (post_donors (<["_id" := JNull]> dee_body) clinic).1
    = inr (Response 200 (SuccessNullId "donor" fields))
    /\ donors (post_donors (<["_id" := JNull]> dee_body) clinic).2
       = [ann; bob; Doc 5%N fields].
Proof. eexists. by vm_compute. Qed.

(** A key that starts with [$] and is no operator is dropped like any
    key that the schema does not declare. *)
Example update_with_unknown_operator :
  (app (Request_ PUT ["api"; "requests"; "000000000000000000000003"]
                 {["$foo" := JNum 1]}) clinic).1
  = inr (Response 200 (Success "request" (Some request3))).
Proof. by vm_compute. Qed.

(** An update casts a number to a string as a creation does. *)
Example update_with_large_number :
  exists d,
    (app (Request_ PUT ["api"; "requests"; "000000000000000000000003"]
                   {["hospital" := JNum (10 ^ 21)]}) clinic).1
    = inr (Response 200 (Success "request" (Some d)))
    /\ doc_fields d !! "hospital" = Some (BStr "1e+21").
Proof. eexists. by vm_compute. Qed.

(** Two values that do not cast: the failure is that of one of them. *)
Example update_with_two_bad_values :
  (app (Request_ PUT ["api"; "requests"; "000000000000000000000003"]
                 (<["unitsNeeded" := JStr "abc"]>
                    {["requestDate" := JBool true]})) clinic).1
  = inr (Response 500
           (Failure (OneOf [CastError "unitsNeeded"; CastError "requestDate"]))).
Proof. by vm_compute. Qed.

(** Across a change of the clocks, 35 calendar days on the local clock
    are one hour short of 35 times 24 hours: a unit collected on 1 March
    at 01:00 local time expires on 5 April at 01:00 local time. *)
Example expiry_across_clock_change :
  expiry_of (H := node_with_clock_change) (JStr "2024-03-01")
  = Some (1709251200000 + 35 * JSDate.msPerDay - 3600000).
Proof. by vm_compute. Qed.

(** C1, on the unit collected from Ann: 15 January plus 35 days is 19
    February. *)
Lemma expiry_of_anns_unit :
  Date_new (prop unit_body "collectionDate") = Some 1705276800000
  /\ doc_fields unit4 !! "expiryDate"
     = Some (BDate (1705276800000 + 35 * JSDate.msPerDay))
  /\ unit4 ∈ inventory (post_inventory unit_body clinic).2.
Proof.
  destruct (expiry_is_collection_plus_35_days unit_body clinic
              (Response 200 (Success "bloodUnit" (Some unit4))) unit4)
    as (D & HD & He & Hin & _); [by vm_compute|done|].
  assert (D = 1705276800000) as -> by (vm_compute in HD; congruence).
  split; [done|]. split; [|done].
  rewrite He. by vm_compute.
Defined.

(** C4, on an identifier no donor has. *)
Lemma delete_unknown_donor :
  delete_donors "00000000000000000000000f" clinic
  = (inr (Response 200 (SuccessMessage "Donor deleted successfully")), clinic)
  /\ (delete_donors "00000000000000000000000f"
                     (World [Doc 15%N ∅] [] [] 0 16%N [] [])).1
     = (delete_donors "00000000000000000000000f" clinic).1.
Proof.
  destruct (delete_of_absent_record_succeeds Donor "00000000000000000000000f"
              15%N clinic) as [Hdel Hsame]; [by vm_compute..|].
  split; [exact Hdel|].
  by apply (Hsame (World [Doc 15%N ∅] [] [] 0 16%N [] []) (Doc 15%N ∅)).
Defined.


(** C7, on the two donors and the request of the clinic. *)
Lemma list_the_clinic :
  exists ds, (get_donors clinic).1 = inr (Response 200 (Docs ds))
             /\ listing_of "createdAt" [ann; bob] ds.
Proof.
  by destruct (listings_sorted_descending clinic) as [Hd _].
Defined.

(** C8, on a path of the single-page application. *)
Lemma get_dashboard :
  app (Request_ GET ["dashboard"] ∅) clinic = app (Request_ GET [] ∅) clinic
  /\ app (Request_ GET ["dashboard"] ∅) clinic
     = (inr (Response 200 (File "<html>Blood Bank</html>")), clinic).
Proof.
  destruct (unmatched_get_serves_entry_document GET ["dashboard"] ∅ clinic)
    as [Hroot Hdoc]; [by left|done..|].
  split; [exact Hroot|]. by apply Hdoc.
Defined.


(** C3 does not hold as stated: a malformed identifier in the path of a
    DELETE is a client error, and it is answered with a 500. *)
Lemma malformed_id_answers_500 :
  (app (Request_ DELETE ["api"; "donors"; "not-an-id"] ∅) clinic).1
  = inr (Response 500 (Failure (CastError "_id")))
  /\ client_error (CastError "_id") = true
  /\ operational_error (CastError "_id") = false
  /\ ~ (400 <= 500 < 500).
Proof. split; [by vm_compute|]. split; [done|]. split; [done|lia]. Qed.

(** C2 fails where the save of the donor does.  A unit is collected from
    Ann while the store answers the insert of the unit and the lookup
    of the donor, and not the save of the donor.  The answer is success
    and the unit stays stored, as claimed; the error is not dropped: the
    rejection of the save, which the handler neither awaits nor
    returns, is left to the runtime as an unhandled rejection. *)
Theorem rejected_donor_save_is_unhandled :
  let w := World [ann; bob] [] [] 1709294400000 4%N [false; false; true] [] in
  (post_inventory unit_body w).1
  = inr (Response 200 (Success "bloodUnit" (Some unit4)))
  /\ inventory (post_inventory unit_body w).2 = [unit4]
  /\ donors (post_inventory unit_body w).2 = [ann; bob]
  /\ unhandled (post_inventory unit_body w).2 = [Operational].
Proof. by vm_compute. Qed.



(** C8 does not hold as stated: a POST to a path that matches no route
    gets the framework's 404, not the entry document. *)
Lemma unmatched_post_answers_404 :
  api_route POST ["nowhere"] ∅ = None
  /\ (app (Request_ POST ["nowhere"] ∅) clinic).1 = inr (Response 404 NoBody)
  /\ (app (Request_ GET [] ∅) clinic).1
     = inr (Response 200 (File "<html>Blood Bank</html>")).
Proof. by vm_compute. Qed.
End Examples.

(** ** Collections as lists of documents *)

Lemma find_id_None (o : ObjectId) (ds : list doc) :
  find_id o ds = None <-> o ∉ map doc_id ds.
Proof.
  unfold find_id. induction ds as [|d ds IH]; simpl.
  - split; [intros _; apply not_elem_of_nil|done].
  - rewrite not_elem_of_cons.
    destruct (bool_decide (doc_id d = o)) eqn:Hd.
    + apply bool_decide_eq_true in Hd. split; [done|]. by intros [? _].
    + apply bool_decide_eq_false in Hd. rewrite IH. split; [|by intros [_ ?]].
      intros Hn. split; [|done]. by intros ->.
Qed.

Lemma find_id_app_Some (o : ObjectId) (ds ds' : list doc) (d : doc) :
  find_id o ds = Some d -> find_id o (ds ++ ds') = Some d.
Proof.
  unfold find_id. induction ds as [|x ds IH]; simpl; [done|].
  by destruct (bool_decide (doc_id x = o)).
Qed.

Lemma find_id_app_None (o : ObjectId) (ds ds' : list doc) :
  find_id o ds = None -> find_id o (ds ++ ds') = find_id o ds'.
Proof.
  unfold find_id. induction ds as [|x ds IH]; simpl; [done|].
  by destruct (bool_decide (doc_id x = o)).
Qed.

Lemma remove_id_app_fresh (d : doc) (ds : list doc) :
  find_id (doc_id d) ds = None -> remove_id (doc_id d) (ds ++ [d]) = ds.
Proof.
  unfold find_id. induction ds as [|x ds IH]; simpl.
  - by rewrite bool_decide_eq_true_2.
  - destruct (bool_decide (doc_id x = doc_id d)); [done|].
    intros Hf. by rewrite IH.
Qed.

Lemma find_id_remove_ne (o o' : ObjectId) (ds : list doc) :
  o' <> o -> find_id o' (remove_id o ds) = find_id o' ds.
Proof.
  intros Hne. unfold find_id. induction ds as [|x ds IH]; simpl; [done|].
  destruct (bool_decide (doc_id x = o)) eqn:Hx; simpl.
  - apply bool_decide_eq_true in Hx.
    by rewrite bool_decide_eq_false_2 by congruence.
  - by rewrite IH.
Qed.

Lemma find_id_remove_unique (o : ObjectId) (ds : list doc) :
  unique_ids ds -> find_id o (remove_id o ds) = None.
Proof.
  unfold unique_ids. induction ds as [|x ds IH]; simpl; [done|].
  intros [Hx Hnd]%NoDup_cons.
  destruct (bool_decide (doc_id x = o)) eqn:Hd.
  - apply bool_decide_eq_true in Hd. subst o. by apply find_id_None.
  - unfold find_id in *. simpl. rewrite Hd. by apply IH.
Qed.

Lemma elem_of_remove_id (o : ObjectId) (ds : list doc) (u : doc) :
  u ∈ remove_id o ds -> u ∈ ds.
Proof.
  induction ds as [|x ds IH]; simpl; [done|].
  destruct (bool_decide (doc_id x = o)).
  - intros Hu. by apply list_elem_of_further.
  - intros [->|Hu]%elem_of_cons; [apply list_elem_of_here|].
    apply list_elem_of_further. by apply IH.
Qed.

Lemma unique_ids_remove (o : ObjectId) (ds : list doc) :
  unique_ids ds -> unique_ids (remove_id o ds).
Proof.
  unfold unique_ids. induction ds as [|x ds IH]; simpl; [done|].
  intros [Hx Hnd]%NoDup_cons.
  destruct (bool_decide (doc_id x = o)); [done|]. simpl.
  apply NoDup_cons. split; [|by apply IH].
  intros Hin. apply Hx.
  apply list_elem_of_fmap in Hin as (u & -> & Hu).
  apply list_elem_of_fmap. exists u. split; [done|].
  by eapply elem_of_remove_id.
Qed.

Lemma unique_ids_insert (d : doc) (ds : list doc) :
  find_id (doc_id d) ds = None -> unique_ids ds -> unique_ids (ds ++ [d]).
Proof.
  unfold unique_ids. intros Hf%find_id_None Hnd.
  rewrite map_app. apply NoDup_app. split; [done|]. split.
  - intros o Ho [->|[]%elem_of_nil]%elem_of_cons. done.
  - simpl. apply NoDup_singleton.
Qed.

Lemma elem_of_replace_id (o : ObjectId) (d d' : doc) (ds : list doc) :
  find_id o ds = Some d -> d' ∈ replace_id o d' ds.
Proof.
  unfold find_id. induction ds as [|x ds IH]; simpl; [done|].
  destruct (bool_decide (doc_id x = o)).
  - intros _. apply list_elem_of_here.
  - intros Hf. apply list_elem_of_further. by apply IH.
Qed.

Lemma elem_of_replace_id_inv (o : ObjectId) (d' u : doc) (ds : list doc) :
  u ∈ replace_id o d' ds -> u = d' \/ u ∈ ds.
Proof.
  induction ds as [|x ds IH]; simpl; [by intros []%elem_of_nil|].
  destruct (bool_decide (doc_id x = o)).
  - intros [->|Hu]%elem_of_cons; [by left|].
    right. by apply list_elem_of_further.
  - intros [->|Hu]%elem_of_cons; [right; apply list_elem_of_here|].
    destruct (IH Hu) as [->|Hin]; [by left|].
    right. by apply list_elem_of_further.
Qed.

Lemma length_replace_id (o : ObjectId) (d' : doc) (ds : list doc) :
  length (replace_id o d' ds) = length ds.
Proof.
  induction ds as [|x ds IH]; simpl; [done|].
  destruct (bool_decide (doc_id x = o)); simpl; by rewrite ?IH.
Qed.

(** A change keeps the identifiers distinct, when a replacement keeps
    its identifier. *)
Lemma change_unique_ids (ins : doc -> Prop) (upd : doc -> doc -> Prop)
    (ds ds' : list doc) :
  change ins upd ds ds' -> unique_ids ds -> unique_ids ds'.
Proof.
  intros [|d Hf _|o|d d' _ Hid _] Hu; [done|..].
  - by apply unique_ids_insert.
  - by apply unique_ids_remove.
  - unfold unique_ids. by rewrite map_doc_id_replace.
Qed.

Lemma change_weaken (ins ins' : doc -> Prop) (upd upd' : doc -> doc -> Prop)
    (ds ds' : list doc) :
  change ins upd ds ds' ->
  (forall d, ins d -> ins' d) -> (forall d d', upd d d' -> upd' d d') ->
  change ins' upd' ds ds'.
Proof.
  intros [|d Hf Hi|o|d d' Hf Hid Hu] Hins Hupd; [constructor| |constructor|].
  - apply change_insert; auto.
  - apply change_replace; auto.
Qed.

(** ** Creating documents *)
Section Creating.
Context `{Platform}.

Lemma schema_NoDup (m : model) : NoDup (map p_name (schema_of m)).
Proof. destruct m; compute_done. Qed.

Lemma version_path (m : model) (p : spath) :
  p ∈ schema_of m -> p_name p = "__v" -> p = versionKey.
Proof.
  intros Hp Hv.
  destruct m; cbn [schema_of] in Hp;
    unfold donorSchema, inventorySchema, requestSchema in Hp;
    repeat (apply elem_of_cons in Hp as [->|Hp]; [done|]);
    by apply elem_of_nil in Hp.
Qed.

(** A document that passed validation when it was built passes it again
    when read back. *)
Lemma created_doc_valid (m : model) (i : idcast) (o : ObjectId)
    (f : spath -> pathval) :
  validate (NewDoc i (map (fun p => (p, f p)) (schema_of m))) = [] ->
  valid_doc m
    (Doc o (inserted_fields (NewDoc i (map (fun p => (p, f p)) (schema_of m)))))
  = true.
Proof.
  intros [_ Hps]%validate_nil. cbn [nd_paths] in Hps.
  apply bool_decide_eq_true, validate_nil. split; [done|].
  unfold hydrate, inserted_fields. cbn [nd_paths doc_fields].
  rewrite Forall_fmap in Hps. rewrite Forall_fmap.
  rewrite Forall_forall in Hps. apply Forall_forall.
  intros p Hp. specialize (Hps p Hp). simpl in *.
  destruct (decide (p_name p = "__v")) as [Hv|Hv].
  - rewrite Hv, lookup_insert_eq. by rewrite (version_path m p Hp Hv).
  - rewrite lookup_insert_ne by done.
    rewrite (fields_of_lookup f (schema_of m) p (schema_NoDup m) Hp).
    by destruct (f p).
Qed.

(** What a creation of a donor or of a request that does not fail has
    done: the document it has built passed validation and went to the
    store, under its own identifier or under the next one generated. *)
Lemma create_outcome (m : model) (key : string) (body : jsobject) (w : world)
    (res : response) :
  let run :=
    try_catch
      (do x <- Model_new m body;
       do x <- save_new m x;
       json 200 (success key x))
      (fun error => json 400 (Failure error)) w in
  let nd :=
    NewDoc match prop body "_id" with
           | JUndefined => IdOk (next_id w)
           | v => castObjectId v
           end
           (map (fun p => (p, init_path (now w) p (prop body (p_name p))))
                (schema_of m)) in
  run.1 = inr res -> is_failure res = false ->
  exists o,
    res = Response 200
            (success key (Saved match nd_id nd with
                                | IdOk o => Some o
                                | _ => None
                                end (inserted_fields nd)))
    /\ match nd_id nd with
       | IdOk o' => o = o'
       | _ => o = N.succ (next_id w)
       end
    /\ validate nd = []
    /\ find_id o (docs_of m w) = None
    /\ valid_doc m (Doc o (inserted_fields nd)) = true
    /\ docs_of m run.2 = (docs_of m w ++ [Doc o (inserted_fields nd)])%list
    /\ forall m', m' <> m -> docs_of m' run.2 = docs_of m' w.
Proof.
  cbn zeta. rewrite create_spec. cbn zeta.
  destruct (validate _) as [|e es] eqn:Hv; [|by intros [= <-]].
  cbn [nd_id nd_paths] in *.
  assert (Hframe : forall (w1 : world) ds m',
             (forall m0, docs_of m0 w1 = docs_of m0 w) ->
             m' <> m -> docs_of m' (set_docs m ds (spend w1)) = docs_of m' w).
  { intros w1 ds m' Hw1 Hne.
    by rewrite docs_of_set_docs_ne, docs_of_spend, Hw1. }
  destruct (match prop body "_id" with JUndefined => _ | _ => _ end)
    as [|o|] eqn:Hid.
  - destruct (answers w); [|by intros [= <-]].
    destruct (find_id _ (docs_of m w)) eqn:Hf; [by intros [= <-]|].
    cbn [fst snd]. intros [= <-] _. eexists. split; [reflexivity|].
    split; [reflexivity|]. split; [done|]. split; [done|].
    split; [by apply created_doc_valid|].
    split; [by rewrite docs_of_set_docs|].
    intros m'. apply Hframe. intros m0. by rewrite !docs_of_bump.
  - destruct (answers w); [|by intros [= <-]].
    destruct (find_id _ (docs_of m w)) eqn:Hf; [by intros [= <-]|].
    cbn [fst snd]. intros [= <-] _. eexists. split; [reflexivity|].
    split; [reflexivity|]. split; [done|]. split; [done|].
    split; [by apply created_doc_valid|].
    split; [by rewrite docs_of_set_docs|].
    intros m'. apply Hframe. intros m0. by rewrite !docs_of_bump.
  - exfalso. revert Hv. unfold validate. by cbn [nd_id app].
Qed.

(** The same for an answer that shows the document with an identifier:
    the document shown is the one stored. *)
Lemma create_success (m : model) (key : string) (body : jsobject) (w : world)
    (res : response) (k : string) (d : doc) :
  let run :=
    try_catch
      (do x <- Model_new m body;
       do x <- save_new m x;
       json 200 (success key x))
      (fun error => json 400 (Failure error)) w in
  run.1 = inr res -> res_payload res = Success k (Some d) ->
  find_id (doc_id d) (docs_of m w) = None
  /\ valid_doc m d = true
  /\ run.2 = set_docs m (docs_of m w ++ [d]) (spend (bump w))
  /\ doc_fields d
     = inserted_fields
         (NewDoc (IdOk (doc_id d))
            (map (fun p => (p, init_path (now w) p (prop body (p_name p))))
                 (schema_of m)))
  /\ validate
       (NewDoc (IdOk (doc_id d))
          (map (fun p => (p, init_path (now w) p (prop body (p_name p))))
               (schema_of m))) = [].
Proof.
  cbn zeta. rewrite create_spec. cbn zeta.
  destruct (validate _) as [|e es] eqn:Hv; [|by intros [= <-]].
  cbn [nd_id nd_paths] in *.
  destruct (match prop body "_id" with JUndefined => _ | _ => _ end)
    as [|o|]; (destruct (answers w); [|by intros [= <-]]);
    (destruct (find_id _ (docs_of m w)) eqn:Hf; [by intros [= <-]|]);
    cbn [fst snd]; intros [= <-]; cbn [res_payload success sv_id sv_fields];
    try done.
  intros [= _ <-].
  split; [done|]. split; [by apply created_doc_valid|]. done.
Qed.

(** A creation that does not succeed leaves the collections alone. *)
Lemma create_effect (m : model) (key : string) (body : jsobject) (w : world)
    (m' : model) :
  let run :=
    try_catch
      (do x <- Model_new m body;
       do x <- save_new m x;
       json 200 (success key x))
      (fun error => json 400 (Failure error)) w in
  (m' <> m -> docs_of m' run.2 = docs_of m' w)
  /\ change (fun d => valid_doc m d = true) (fun _ _ => False)
            (docs_of m w) (docs_of m run.2)
  /\ (answers w = false -> docs_of m run.2 = docs_of m w).
Proof.
  cbn zeta. rewrite create_spec. cbn zeta.
  assert (Hsame : forall m0 w1, (forall m1, docs_of m1 w1 = docs_of m1 w) ->
                                docs_of m0 (spend w1) = docs_of m0 w).
  { intros m0 w1 Hw1. by rewrite docs_of_spend. }
  assert (Hbump : forall m0, docs_of m0 (bump w) = docs_of m0 w).
  { intros m0. apply docs_of_bump. }
  assert (Hbump2 : forall m0, docs_of m0 (bump (bump w)) = docs_of m0 w).
  { intros m0. by rewrite !docs_of_bump. }
  assert (Hkept : forall (res : error + response) w1,
             (forall m1, docs_of m1 w1 = docs_of m1 w) ->
             (m' <> m -> docs_of m' (res, spend w1).2 = docs_of m' w)
             /\ change (fun d => valid_doc m d = true) (fun _ _ => False)
                       (docs_of m w) (docs_of m (res, spend w1).2)
             /\ (answers w = false -> docs_of m (res, spend w1).2 = docs_of m w)).
  { intros res w1 Hw1. cbn [snd]. rewrite !Hsame by done.
    split; [done|]. split; [constructor|done]. }
  destruct (validate _) as [|e es] eqn:Hv.
  2: { cbn [snd]. rewrite !Hbump. split; [done|]. split; [constructor|done]. }
  cbn [nd_id nd_paths] in *.
  assert (Hadded : forall d w1 (res : error + response),
             (forall m1, docs_of m1 w1 = docs_of m1 w) ->
             find_id (doc_id d) (docs_of m w) = None ->
             valid_doc m d = true ->
             (m' <> m ->
              docs_of m' (res, set_docs m (docs_of m w ++ [d]) (spend w1)).2
              = docs_of m' w)
             /\ change (fun d => valid_doc m d = true) (fun _ _ => False)
                  (docs_of m w)
                  (docs_of m
                     (res, set_docs m (docs_of m w ++ [d]) (spend w1)).2)).
  { intros d w1 res Hw1 Hf Hvalid. cbn [snd]. split.
    - intros Hne. by rewrite docs_of_set_docs_ne, Hsame.
    - rewrite docs_of_set_docs. by constructor. }
  destruct (match prop body "_id" with JUndefined => _ | _ => _ end)
    as [|o|].
  - destruct (answers w); [|by apply Hkept].
    destruct (find_id _ (docs_of m w)) eqn:Hf; [by apply Hkept|].
    destruct (Hadded (Doc (N.succ (next_id w))
                        (inserted_fields
                           (NewDoc IdNone
                              (map (fun p => (p, init_path (now w) p
                                                   (prop body (p_name p))))
                                   (schema_of m)))))
                (bump (bump w))
                (inr (Response 200
                        (success key
                           (Saved None
                              (inserted_fields
                                 (NewDoc IdNone
                                    (map (fun p => (p, init_path (now w) p
                                                         (prop body (p_name p))))
                                         (schema_of m)))))))))
      as [Hne Hch]; [done|done|by apply created_doc_valid|].
    split; [exact Hne|]. split; [exact Hch|done].
  - destruct (answers w); [|by apply Hkept].
    destruct (find_id _ (docs_of m w)) eqn:Hf; [by apply Hkept|].
    destruct (Hadded (Doc o
                        (inserted_fields
                           (NewDoc (IdOk o)
                              (map (fun p => (p, init_path (now w) p
                                                   (prop body (p_name p))))
                                   (schema_of m)))))
                (bump w)
                (inr (Response 200
                        (success key
                           (Saved (Some o)
                              (inserted_fields
                                 (NewDoc (IdOk o)
                                    (map (fun p => (p, init_path (now w) p
                                                         (prop body (p_name p))))
                                         (schema_of m)))))))))
      as [Hne Hch]; [done|done|by apply created_doc_valid|].
    split; [exact Hne|]. split; [exact Hch|done].
  - exfalso. revert Hv. unfold validate. by cbn [nd_id app].
Qed.
End Creating.

(** ** What a request does to the store *)
Section Effects.
Context `{Platform}.

Lemma donor_to_refresh_Some (n : nat) (donorId : jsval) (w : world) (d : doc) :
  donor_to_refresh n donorId w = Some d ->
  castObjectId donorId = IdOk (doc_id d)
  /\ find_id (doc_id d) (donors w) = Some d
  /\ valid_doc Donor d = true.
Proof.
  unfold donor_to_refresh. intros Hr.
  destruct (castObjectId donorId) as [|o|]; try done.
  destruct (answers_at n w && answers_at (S n) w); [|done].
  destruct (find_id o (donors w)) as [d0|] eqn:Hf; [|done].
  destruct (valid_doc Donor d0) eqn:Hv; [|done].
  injection Hr as ->.
  destruct (find_id_Some _ _ _ Hf) as [<- _]. done.
Qed.

(** Setting [lastDonation] to a date keeps a donor valid. *)
Lemma with_last_donation_valid (t : Z) (d : doc) :
  valid_doc Donor d = true -> valid_doc Donor (with_last_donation t d) = true.
Proof.
  intros Hv%bool_decide_eq_true. apply bool_decide_eq_true.
  unfold hydrate, with_last_donation in *.
  cbn [map schema_of donorSchema versionKey p_name doc_fields doc_id] in *.
  unfold donorSchema, versionKey in *. cbn [map p_name] in *.
  rewrite lookup_insert_eq, !lookup_insert_ne by done.
  exact Hv.
Qed.

(** The whole effect of an inventory creation. *)
Lemma post_inventory_effect (body : jsobject) (w : world) :
  let w' := (post_inventory body w).2 in
  requests w' = requests w
  /\ change fresh_unit (fun _ _ => False) (inventory w) (inventory w')
  /\ change (fun d => valid_doc Donor d = true) refreshed
            (donors w) (donors w')
  /\ (answers w = false ->
      inventory w' = inventory w /\ donors w' = donors w)
  /\ (forall o, castObjectId (prop body "donorId") <> IdOk o ->
                find_id o (donors w') = find_id o (donors w)).
Proof.
  cbn zeta. rewrite post_inventory_spec. cbn zeta.
  destruct (validate (new_unit body w)) as [|err errs] eqn:Hv.
  2: { repeat split; constructor. }
  destruct (answers w).
  2: { repeat split; constructor. }
  destruct (find_id (next_id w) (inventory w)) eqn:Hfresh.
  { repeat split; constructor. }
  destruct (new_unit_valid _ _ Hv) as (s1 & s2 & t & e & Hp & Hc & He).
  set (unit := Doc (next_id w) (inserted_fields (new_unit body w))).
  destruct (update_donor_spec (prop body "donorId") _ _
              (set_docs Inventory (inventory w ++ [unit]) (spend (bump w))) Hc)
    as (Hi & Hr & Hd).
  cbn [snd]. rewrite Hi, Hr, Hd, donor_to_refresh_after_insert.
  cbn [inventory requests donors set_docs spend bump].
  split; [done|]. split; [|split; [|split; [done|]]].
  - apply change_insert; [done|]. split.
    + by apply (created_doc_valid Inventory).
    + subst unit. unfold inserted_fields. cbn [doc_fields]. by rewrite Hp.
  - destruct (donor_to_refresh 1 (prop body "donorId") w) as [d|] eqn:Hto;
      [|constructor].
    destruct (donor_to_refresh_Some _ _ _ _ Hto) as (_ & Hf & Hvd).
    apply (change_replace _ _ _ d (with_last_donation t d)); [done|done|].
    by exists t.
  - intros o Ho.
    destruct (donor_to_refresh 1 (prop body "donorId") w) as [d|] eqn:Hto;
      [|done].
    destruct (donor_to_refresh_Some _ _ _ _ Hto) as (Hcast & _ & _).
    apply find_id_replace_ne; [done|]. intros ->. by apply Ho.
Qed.

Lemma delete_effect (m : model) (id : string) (w : world) (m' : model) :
  let w' := (delete_handler m id w).2 in
  (m' <> m -> docs_of m' w' = docs_of m' w)
  /\ (docs_of m w' = docs_of m w
      \/ exists o, ObjectId_of_string id = Some o
                   /\ docs_of m w' = remove_id o (docs_of m w))
  /\ (answers w = false -> docs_of m w' = docs_of m w).
Proof.
  cbn zeta. rewrite delete_handler_spec.
  destruct (ObjectId_of_string id) as [o|]; [|by repeat split; try left].
  destruct (answers w); cbn [snd].
  - rewrite docs_of_set_docs. split; [|split; [|done]].
    + intros Hne. by rewrite docs_of_set_docs_ne, docs_of_spend.
    + right. by exists o.
  - rewrite !docs_of_spend. by repeat split; try left.
Qed.

Lemma put_effect (id : string) (body : jsobject) (w : world) :
  let w' := (put_requests id body w).2 in
  donors w' = donors w
  /\ inventory w' = inventory w
  /\ change (fun d => valid_doc Request d = true) overwritten
            (requests w) (requests w')
  /\ map doc_id (requests w') = map doc_id (requests w)
  /\ (answers w = false -> requests w' = requests w).
Proof.
  cbn zeta. rewrite put_requests_spec.
  destruct (ObjectId_of_string id) as [o|]; [|by repeat split; try constructor].
  destruct (castUpdate requestSchema body) as [e|u];
    [by repeat split; try constructor|].
  destruct (answers w); [|by repeat split; try constructor].
  destruct (find_id o (requests w)) as [d|] eqn:Hf;
    [|by repeat split; try constructor].
  destruct (find_id_Some _ _ _ Hf) as [Hd _].
  destruct (keeps_id (doc_id d) u); [|by repeat split; try constructor].
  cbn [snd donors inventory requests set_docs spend].
  split; [done|]. split; [done|]. split; [|split; [|done]].
  - apply (change_replace _ _ _ d); [by rewrite Hd|done|]. by eexists.
  - by apply map_doc_id_replace.
Qed.

Lemma listing_effect (m : model) (w : world) (m' : model) :
  docs_of m' (get_handler m w).2 = docs_of m' w.
Proof.
  destruct m; unfold get_handler, get_donors, get_inventory, get_requests;
    rewrite listing_spec; apply docs_of_spend.
Qed.

(** A property of the store before and after that every handler keeps,
    the application keeps for every request. *)
Lemma app_keeps (Q : world -> world -> Prop) :
  (forall w, Q w w) ->
  (forall m w, Q w (get_handler m w).2) ->
  (forall m body w, Q w (post_handler m body w).2) ->
  (forall m id w, Q w (delete_handler m id w).2) ->
  (forall id body w, Q w (put_requests id body w).2) ->
  forall r w, Q w (app r w).2.
Proof.
  intros Hsame Hget Hpost Hdel Hput r w.
  assert (Hroute : forall m path body handler,
             api_route m path body = Some handler -> Q w (handler w).2).
  { intros m path body handler. unfold api_route.
    repeat case_match; intros; simplify_eq;
      first [ apply (Hget Donor) | apply (Hget Inventory)
            | apply (Hget Request) | apply (Hpost Donor)
            | apply (Hpost Inventory) | apply (Hpost Request)
            | apply (Hdel Donor) | apply (Hdel Inventory)
            | apply (Hdel Request) | apply Hput ]. }
  assert (Hdispatch : forall m path body, Q w (dispatch m path body w).2).
  { intros m path body. unfold dispatch.
    destruct (match m with GET => _ | _ => _ end); [apply Hsame|].
    destruct (api_route m path body) as [handler|] eqn:Hr;
      [by eapply Hroute|].
    unfold send_index.
    destruct m; try apply Hsame; destruct (frontend _); apply Hsame. }
  unfold app. destruct (req_method r); try apply Hdispatch.
  - unfold bind.
    specialize (Hdispatch GET (req_path r) (req_body r)).
    by destruct (dispatch GET _ _ w) as [[e|res] w'].
  - apply Hsame.
Qed.

(** Every request steps the store in one of the ways of
    [request_step]. *)
Lemma app_step (r : request) (w : world) : request_step w (app r w).2.
Proof.
  apply (app_keeps request_step); clear r w.
  - intros w. repeat split; constructor.
  - intros m w. unfold request_step.
    pose proof (listing_effect m w Donor) as Hd.
    pose proof (listing_effect m w Inventory) as Hi.
    pose proof (listing_effect m w Request) as Hr.
    cbn [docs_of] in Hd, Hi, Hr. rewrite Hd, Hi, Hr.
    repeat split; constructor.
  - intros [] body w; simpl.
    + destruct (create_effect Donor "donor" body w Inventory) as (Hi & Hc & _).
      destruct (create_effect Donor "donor" body w Request) as (Hr & _ & _).
      rewrite <- post_donors_unfold in *. unfold request_step.
      change (docs_of Inventory ?x) with (inventory x) in *.
      change (docs_of Request ?x) with (requests x) in *.
      change (docs_of Donor ?x) with (donors x) in *.
      rewrite Hi, Hr by done. split; [|split; constructor].
      eapply change_weaken; [exact Hc|done|done].
    + destruct (post_inventory_effect body w) as (Hr & Hi & Hd & _).
      unfold request_step. rewrite Hr. split; [done|]. split; [done|].
      constructor.
    + destruct (create_effect Request "request" body w Inventory)
        as (Hi & Hc & _).
      destruct (create_effect Request "request" body w Donor) as (Hd & _ & _).
      rewrite <- post_requests_spec in *. unfold request_step.
      change (docs_of Inventory ?x) with (inventory x) in *.
      change (docs_of Request ?x) with (requests x) in *.
      change (docs_of Donor ?x) with (donors x) in *.
      rewrite Hi, Hd by done. split; [constructor|]. split; [constructor|].
      eapply change_weaken; [exact Hc|done|done].
  - intros m id w. unfold request_step.
    destruct (delete_effect m id w Donor) as (Hd1 & Hd2 & _).
    destruct (delete_effect m id w Inventory) as (Hi1 & Hi2 & _).
    destruct (delete_effect m id w Request) as (Hr1 & Hr2 & _).
    cbn zeta in *.
    destruct m; cbn [docs_of] in *.
    + rewrite Hi1, Hr1 by done. split; [|split; constructor].
      destruct Hd2 as [->|(o & _ & ->)]; constructor.
    + rewrite Hd1, Hr1 by done. split; [constructor|]. split; [|constructor].
      destruct Hi2 as [->|(o & _ & ->)]; constructor.
    + rewrite Hd1, Hi1 by done. split; [constructor|]. split; [constructor|].
      destruct Hr2 as [->|(o & _ & ->)]; constructor.
  - intros id body w. unfold request_step.
    destruct (put_effect id body w) as (Hd & Hi & Hr & _).
    rewrite Hd, Hi. split; [constructor|]. split; [constructor|done].
Qed.
End Effects.

(** ** Properties of the store across requests *)

Lemma change_Forall (P : doc -> Prop) (ins : doc -> Prop)
    (upd : doc -> doc -> Prop) (ds ds' : list doc) :
  change ins upd ds ds' ->
  (forall d, ins d -> P d) ->
  (forall d d', P d -> upd d d' -> P d') ->
  Forall P ds -> Forall P ds'.
Proof.
  intros [|d Hf Hi|o|d d' Hf Hid Hdd] Hins Hupd Hall; [done|..].
  - apply Forall_app. split; [done|]. apply Forall_singleton. auto.
  - rewrite Forall_forall in *. intros u Hu%elem_of_remove_id. auto.
  - rewrite Forall_forall in *.
    intros u [->|Hu]%elem_of_replace_id_inv; [|auto].
    apply (Hupd d); [|done]. apply Hall.
    by destruct (find_id_Some _ _ _ Hf).
Qed.

Lemma unique_ids_eq (ds : list doc) (x y : doc) :
  unique_ids ds -> x ∈ ds -> y ∈ ds -> doc_id x = doc_id y -> x = y.
Proof.
  unfold unique_ids. induction ds as [|d ds IH]; [by intros _ []%elem_of_nil|].
  simpl. intros [Hd Hnd]%NoDup_cons Hx Hy Hid.
  apply elem_of_cons in Hx as [->|Hx]; apply elem_of_cons in Hy as [->|Hy].
  - done.
  - exfalso. apply Hd. rewrite Hid. apply list_elem_of_fmap. by exists y.
  - exfalso. apply Hd. rewrite <- Hid. apply list_elem_of_fmap. by exists x.
  - by apply IH.
Qed.

Section StoreProperties.
Context `{Platform}.

(** X1: no request makes two documents of a collection share an
    identifier. *)
Theorem identifiers_stay_unique (r : request) (w : world)
    (Hd : unique_ids (donors w)) (Hi : unique_ids (inventory w))
    (Hr : unique_ids (requests w)) :
  unique_ids (donors (app r w).2)
  /\ unique_ids (inventory (app r w).2)
  /\ unique_ids (requests (app r w).2).
Proof.
  destruct (app_step r w) as (Sd & Si & Sr).
  repeat split; by eapply change_unique_ids.
Qed.

(** X2: no request changes a stored unit.  A unit in the inventory
    after a request was there before, or is the one the request has
    appended, valid for the schema and with status [Available]: the
    statuses [Used] and [Expired] never come about through this
    application. *)
Theorem stored_units_never_change (r : request) (w : world) (u : doc)
    (Hu : u ∈ inventory (app r w).2) :
  u ∈ inventory w
  \/ (inventory (app r w).2 = (inventory w ++ [u])%list
      /\ valid_doc Inventory u = true
      /\ doc_fields u !! "status" = Some (BStr "Available")).
Proof.
  destruct (app_step r w) as (_ & Si & _).
  destruct Si as [|d Hf Hfresh|o|d d' Hf Hid Hfalse].
  - by left.
  - destruct Hfresh as [Hv Hs].
    apply elem_of_app in Hu as [Hu | ->%list_elem_of_singleton]; [by left|].
    by right.
  - left. by eapply elem_of_remove_id.
  - done.
Qed.

(** X3: no request changes a field of a registered donor other than
    [lastDonation]. *)
Theorem donor_fields_never_change (r : request) (w : world) (o : ObjectId)
    (d d' : doc)
    (Hunique : unique_ids (donors w))
    (Hbefore : find_id o (donors w) = Some d)
    (Hafter : find_id o (donors (app r w).2) = Some d') :
  doc_id d' = doc_id d
  /\ forall k, k <> "lastDonation" -> doc_fields d' !! k = doc_fields d !! k.
Proof.
  destruct (app_step r w) as (Sd & _ & _).
  destruct Sd as [|x Hf _|o2|d0 d0' Hf0 Hid (t & ->)].
  - rewrite Hbefore in Hafter. by simplify_eq.
  - rewrite (find_id_app_Some _ _ _ _ Hbefore) in Hafter. by simplify_eq.
  - destruct (decide (o = o2)) as [->|Hne].
    + by rewrite find_id_remove_unique in Hafter.
    + rewrite find_id_remove_ne in Hafter by done.
      rewrite Hbefore in Hafter. by simplify_eq.
  - destruct (decide (o = doc_id d0)) as [->|Hne].
    + rewrite find_id_replace_id in Hafter by (done || by eexists).
      rewrite Hf0 in Hbefore. simplify_eq. split; [done|].
      intros k Hk. by apply lookup_insert_ne.
    + rewrite find_id_replace_ne in Hafter by done.
      rewrite Hbefore in Hafter. by simplify_eq.
Qed.

(** X4: donors and inventory units that pass the validation of their
    schemas still do after any request. *)
Theorem donors_and_units_stay_valid (r : request) (w : world)
    (Hd : Forall (fun d => valid_doc Donor d = true) (donors w))
    (Hi : Forall (fun u => valid_doc Inventory u = true) (inventory w)) :
  Forall (fun d => valid_doc Donor d = true) (donors (app r w).2)
  /\ Forall (fun u => valid_doc Inventory u = true) (inventory (app r w).2).
Proof.
  destruct (app_step r w) as (Sd & Si & _). split.
  - eapply change_Forall; [exact Sd|done| |done].
    intros d d' Hv (t & ->). by apply with_last_donation_valid.
  - eapply change_Forall; [exact Si| |done|done].
    by intros u [Hv _].
Qed.

(** X10: when the store does not answer, no request changes a
    collection. *)
Theorem store_failure_changes_nothing (r : request) (w : world) (m : model)
    (Hdown : answers w = false) :
  docs_of m (app r w).2 = docs_of m w.
Proof.
  revert Hdown m.
  apply (app_keeps (fun w w' =>
           answers w = false -> forall m, docs_of m w' = docs_of m w));
    clear r w.
  - done.
  - intros m w _ m'. apply listing_effect.
  - intros [] body w Hdown m'; simpl.
    + destruct (create_effect Donor "donor" body w m') as (Hne & _ & Hsame).
      rewrite <- post_donors_unfold in *.
      destruct (decide (m' = Donor)) as [->|Hm]; auto.
    + destruct (post_inventory_effect body w) as (Hr & _ & _ & Hsame & _).
      destruct (Hsame Hdown) as [Hi Hd]. by destruct m'.
    + destruct (create_effect Request "request" body w m')
        as (Hne & _ & Hsame).
      rewrite <- post_requests_spec in *.
      destruct (decide (m' = Request)) as [->|Hm]; auto.
  - intros m id w Hdown m'.
    destruct (delete_effect m id w m') as (Hne & _ & _).
    destruct (delete_effect m id w m) as (_ & _ & Hsame).
    destruct (decide (m' = m)) as [->|Hm]; auto.
  - intros id body w Hdown m'.
    destruct (put_effect id body w) as (Hd & Hi & _ & _ & Hsame).
    destruct m'; simpl; auto.
Qed.
End StoreProperties.

(** ** Properties of single handlers and of their composition *)
Section HandlerProperties.
Context `{Platform}.

(** A creation of a donor or of a request that is not refused: the
    answer shows the document that went to the store. *)
Lemma create_shows (m : model) (key : string) (body : jsobject) (w : world)
    (res : response) :
  let run :=
    try_catch
      (do x <- Model_new m body;
       do x <- save_new m x;
       json 200 (success key x))
      (fun error => json 400 (Failure error)) w in
  run.1 = inr res -> is_failure res = false ->
  exists d,
    shows res d
    /\ find_id (doc_id d) (docs_of m w) = None
    /\ docs_of m run.2 = (docs_of m w ++ [d])%list
    /\ valid_doc m d = true.
Proof.
  cbn zeta. intros Hres Hok.
  destruct (create_outcome m key body w res Hres Hok)
    as (o & -> & Ho & Hv & Hf & Hvalid & Hdocs & Hframe).
  cbn [nd_id nd_paths] in *.
  eexists (Doc o _). split; [|done].
  exists key. unfold success. cbn [res_payload sv_id sv_fields doc_fields].
  destruct (match prop body "_id" with JUndefined => _ | _ => _ end);
    [by right|subst; by left|by right].
Qed.

(** A creation that is not refused has stored one document, valid for
    its schema, under an identifier that was free; the answer shows
    it. *)
Lemma post_handler_outcome (m : model) (body : jsobject) (w : world)
    (res : response) :
  (post_handler m body w).1 = inr res -> is_failure res = false ->
  exists d,
    shows res d
    /\ find_id (doc_id d) (docs_of m w) = None
    /\ docs_of m (post_handler m body w).2 = (docs_of m w ++ [d])%list
    /\ valid_doc m d = true.
Proof.
  destruct m; cbn [post_handler].
  - rewrite post_donors_unfold. apply create_shows.
  - rewrite post_inventory_spec. cbn zeta.
    destruct (validate (new_unit body w)) as [|e es] eqn:Hv;
      [|by intros [= <-]].
    destruct (answers w); [|by intros [= <-]].
    destruct (find_id (next_id w) (inventory w)) eqn:Hf; [by intros [= <-]|].
    cbn [fst snd]. intros [= <-] _.
    destruct (new_unit_valid _ _ Hv) as (s1 & s2 & t & e & Hp & Hc & He).
    destruct (update_donor_spec (prop body "donorId") _ _
                (set_docs Inventory
                   (inventory w
                    ++ [Doc (next_id w) (inserted_fields (new_unit body w))])
                   (spend (bump w))) Hc) as (Hi & _).
    exists (Doc (next_id w) (inserted_fields (new_unit body w))).
    split; [exists "bloodUnit"; by left|].
    cbn [docs_of]. split; [done|]. split; [by rewrite Hi|].
    by apply (created_doc_valid Inventory).
  - rewrite post_requests_spec. apply create_shows.
Qed.

(** The same for an answer that shows the document with its
    identifier. *)
Lemma post_handler_success (m : model) (body : jsobject) (w : world)
    (res : response) (k : string) (d : doc) :
  (post_handler m body w).1 = inr res ->
  res_payload res = Success k (Some d) ->
  find_id (doc_id d) (docs_of m w) = None
  /\ docs_of m (post_handler m body w).2 = (docs_of m w ++ [d])%list
  /\ valid_doc m d = true.
Proof.
  intros Hres Hd.
  destruct (post_handler_outcome m body w res Hres) as (d0 & Hshow & Hrest).
  { unfold is_failure. by rewrite Hd. }
  destruct Hshow as (key & [Hs|Hs]); rewrite Hd in Hs; [|done].
  by simplify_eq.
Qed.

Lemma get_handler_spec (m : model) (w : world) :
  answers w = true ->
  (get_handler m w).1
  = inr (Response 200
           (Docs (merge_sort
                    (desc_by match m with
                             | Request => "requestDate"
                             | _ => "createdAt"
                             end) (docs_of m w)))).
Proof.
  intros Hup.
  destruct m; unfold get_handler, get_donors, get_inventory, get_requests;
    by rewrite listing_spec, Hup.
Qed.

(** X7: a POST that is not refused has stored one record, the one its
    answer shows, and that record is in the next listing of its
    collection, which holds the records of before and this one. *)
Theorem created_record_is_listed (m : model) (body : jsobject) (w : world)
    (res : response)
    (Hres : (post_handler m body w).1 = inr res)
    (Hok : is_failure res = false)
    (Hup : answers (post_handler m body w).2 = true) :
  exists d ds,
    shows res d
    /\ (get_handler m (post_handler m body w).2).1
       = inr (Response 200 (Docs ds))
    /\ d ∈ ds
    /\ ds ≡ₚ docs_of m w ++ [d].
Proof.
  destruct (post_handler_outcome _ _ _ _ Hres Hok)
    as (d & Hshow & _ & Hdocs & _).
  exists d. eexists. split; [exact Hshow|].
  split; [by apply get_handler_spec|].
  rewrite Hdocs.
  split; [|apply merge_sort_Permutation].
  rewrite merge_sort_Permutation. apply elem_of_app. right.
  by apply list_elem_of_singleton.
Qed.

(** X9: deleting a record right after its creation gives back the
    collection as it was before the creation. *)
Theorem create_then_delete_restores (m : model) (body : jsobject) (w : world)
    (res : response) (k : string) (d : doc) (id : string)
    (Hres : (post_handler m body w).1 = inr res)
    (Hd : res_payload res = Success k (Some d))
    (Hid : ObjectId_of_string id = Some (doc_id d))
    (Hup : answers (post_handler m body w).2 = true) :
  (delete_handler m id (post_handler m body w).2).1
  = inr (Response 200 (SuccessMessage (deleted_message m)))
  /\ docs_of m (delete_handler m id (post_handler m body w).2).2
     = docs_of m w.
Proof.
  destruct (post_handler_success _ _ _ _ _ _ Hres Hd) as (Hf & Hdocs & _).
  rewrite delete_handler_spec, Hid, Hup. split; [done|].
  cbn [snd]. rewrite docs_of_set_docs, Hdocs.
  by apply remove_id_app_fresh.
Qed.

(** X8: a DELETE under a well-formed identifier, answered by the store,
    removes the record of that identifier and nothing else. *)
Theorem delete_removes_the_record (m : model) (id : string) (o : ObjectId)
    (w : world)
    (Hid : ObjectId_of_string id = Some o)
    (Hup : answers w = true)
    (Hunique : unique_ids (docs_of m w)) :
  let w' := (delete_handler m id w).2 in
  find_id o (docs_of m w') = None
  /\ (forall o', o' <> o -> find_id o' (docs_of m w') = find_id o' (docs_of m w))
  /\ (forall m', m' <> m -> docs_of m' w' = docs_of m' w).
Proof.
  cbn zeta. rewrite delete_handler_spec, Hid, Hup. cbn [snd].
  rewrite docs_of_set_docs. split; [by apply find_id_remove_unique|].
  split.
  - intros o' Hne. by apply find_id_remove_ne.
  - intros m' Hne. by rewrite docs_of_set_docs_ne, docs_of_spend.
Qed.

(** X11: an identifier in the path that is not well formed is answered
    with a 500 by the DELETE and PUT handlers, before the store is
    asked anything: the world is as it was. *)
Theorem malformed_identifier_reaches_no_store (m : model) (id : string)
    (body : jsobject) (w : world)
    (Hid : ObjectId_of_string id = None) :
  delete_handler m id w = (inr (Response 500 (Failure (CastError "_id"))), w)
  /\ put_requests id body w
     = (inr (Response 500 (Failure (CastError "_id"))), w).
Proof. by rewrite delete_handler_spec, put_requests_spec, Hid. Qed.

(** X12: a PUT neither adds nor removes a request, whatever its
    identifier and body, and leaves donors and inventory alone. *)
Theorem update_keeps_the_records (id : string) (body : jsobject) (w : world) :
  map doc_id (requests (put_requests id body w).2) = map doc_id (requests w)
  /\ donors (put_requests id body w).2 = donors w
  /\ inventory (put_requests id body w).2 = inventory w.
Proof. by destruct (put_effect id body w) as (Hd & Hi & _ & Hids & _). Qed.

(** X6: after a PUT that returned a record, the next listing of the
    requests shows that record, and no other under its identifier. *)
Theorem update_shows_in_listing (id : string) (body : jsobject) (w : world)
    (res : response) (d' : doc)
    (Hunique : unique_ids (requests w))
    (Hres : (put_requests id body w).1 = inr res)
    (Hd : res_payload res = Success "request" (Some d'))
    (Hup : answers (put_requests id body w).2 = true) :
  exists ds,
    (get_requests (put_requests id body w).2).1 = inr (Response 200 (Docs ds))
    /\ d' ∈ ds
    /\ forall x, x ∈ ds -> doc_id x = doc_id d' -> x = d'.
Proof.
  assert (Hin : d' ∈ requests (put_requests id body w).2).
  { revert Hres Hd. rewrite put_requests_spec.
    destruct (ObjectId_of_string id) as [o|]; [|by intros [= <-]].
    destruct (castUpdate requestSchema body) as [e|u]; [by intros [= <-]|].
    destruct (answers w); [|by intros [= <-]].
    destruct (find_id o (requests w)) as [d|] eqn:Hf; [|by intros [= <-]].
    destruct (keeps_id (doc_id d) u); [|by intros [= <-]].
    cbn [fst snd]. intros [= <-]. cbn [res_payload]. intros [= <-].
    cbn [requests set_docs]. eapply elem_of_replace_id.
    by eapply find_id_same. }
  assert (Hu' : unique_ids (requests (put_requests id body w).2)).
  { unfold unique_ids.
    by destruct (put_effect id body w) as (_ & _ & _ & -> & _). }
  eexists. split; [by apply (get_handler_spec Request)|].
  cbn [docs_of]. split; [by rewrite merge_sort_Permutation|].
  intros x Hx Hidx. rewrite merge_sort_Permutation in Hx.
  by apply (unique_ids_eq _ _ _ Hu').
Qed.

(** X14: an inventory creation leaves every donor other than the one
    its [donorId] names as it was. *)
Theorem other_donors_untouched (body : jsobject) (w : world) (o : ObjectId)
    (Hother : castObjectId (prop body "donorId") <> IdOk o) :
  find_id o (donors (post_inventory body w).2) = find_id o (donors w).
Proof.
  destruct (post_inventory_effect body w) as (_ & _ & _ & _ & Hrest).
  by apply Hrest.
Qed.

Lemma expiry_of_None (collectionDate : jsval) :
  Date_new collectionDate = None
  \/ (exists D, Date_new collectionDate = Some D
                /\ JSDate.maxTime < Z.abs (add_calendar_days 35 D)) ->
  expiry_of collectionDate = None.
Proof.
  unfold expiry_of. intros [->|(D & -> & Hbig)]; [done|]. simpl.
  rewrite JSDateFacts.setDate_getDate. unfold JSDate.TimeClip.
  fold (add_calendar_days 35 D).
  destruct (Z.leb_spec (Z.abs (add_calendar_days 35 D)) JSDate.maxTime);
    [lia|done].
Qed.

(** X13: a collection date that is no date, or that lies within 35 days
    of the last instant a date can hold, makes the expiry date invalid:
    the creation is refused with a 400 for [expiryDate] and nothing is
    stored. *)
Theorem unusable_collection_date_is_refused (body : jsobject) (w : world)
    (Hdate : Date_new (prop body "collectionDate") = None
             \/ exists D, Date_new (prop body "collectionDate") = Some D
                          /\ JSDate.maxTime < Z.abs (add_calendar_days 35 D)) :
  exists errs,
    post_inventory body w
    = (inr (Response 400 (Failure (ValidationError errs))), bump w)
    /\ ("expiryDate", VCast) ∈ errs.
Proof.
  apply expiry_of_None in Hdate.
  assert (Hin : ("expiryDate", VCast) ∈ validate (new_unit body w)).
  { unfold validate, new_unit. cbn [nd_id nd_paths app].
    apply list_elem_of_omap.
    exists (SPath "expiryDate" SDate true NoDefault None, PCastError).
    split; [|done].
    unfold inventorySchema. cbn [map p_name].
    do 3 apply list_elem_of_further.
    change (prop _ "expiryDate")
      with (JDate (expiry_of (prop body "collectionDate"))).
    rewrite Hdate. apply list_elem_of_here. }
  rewrite post_inventory_spec. cbn zeta.
  destruct (validate (new_unit body w)) as [|e es];
    [by apply elem_of_nil in Hin|].
  by eexists.
Qed.
Lemma update_errors_client (sch : schema) (body : jsobject) :
  Forall (fun e => client_error e = true) (update_errors sch body).
Proof.
  unfold update_errors. rewrite !Forall_app. split; [|split].
  - unfold cast_errors, update_casts. apply Forall_forall. intros e He.
    apply list_elem_of_omap in He as ([k [e'|b]] & Hin & Heq); [|done].
    simplify_eq.
    apply list_elem_of_omap in Hin as (p & _ & Hp).
    unfold cast_set in Hp. destruct (prop body (p_name p)); try done;
      destruct (cast _ _); simpl in Hp; by simplify_eq.
  - destruct (castObjectId _); by repeat constructor.
  - apply Forall_fmap. by apply Forall_true.
Qed.

(** What an update is refused for is an error of the request. *)
Lemma castUpdate_client_error (sch : schema) (body : jsobject) (e : error) :
  castUpdate sch body = inl e -> client_error e = true.
Proof.
  unfold castUpdate. destruct (truthy _ && _); [by intros [= <-]|].
  pose proof (update_errors_client sch body) as Hall.
  destruct (update_errors sch body) as [|e1 [|e2 es]]; [done|..].
  - intros [= <-]. by apply Forall_cons in Hall as [? _].
  - intros [= <-]. cbn [client_error]. apply forallb_forall.
    intros x Hx%list_elem_of_In. rewrite Forall_forall in Hall. auto.
Qed.

(** C3, as the code has it.  Every request is answered, and a failure
    envelope ([success: false] with the message of the error) goes out
    with status 400 from the POST handlers and with status 500 from
    every other handler.  Every handler of the API is a try block whose
    catch answers whatever was thrown with that envelope, and whose
    try block answers with no envelope of this kind.  So a body that
    fails validation and a store that does not answer are both a 400 in
    a POST; an identifier that is not well formed, a value of the body
    that does not cast and a store that does not answer are all a 500
    in a DELETE, a PUT or a GET. *)
Theorem failures_by_method (w : world) :
  (forall r,
     exists res,
       (app r w).1 = inr res
       /\ forall e, res_payload res = Failure e ->
                    status res = failure_status (req_method r))
  /\ (forall m path body handler,
        api_route m path body = Some handler ->
        exists attempt,
          handler
          = try_catch attempt
              (fun error => json (failure_status m) (Failure error))
          /\ returns_plain attempt)
  /\ (forall m body,
        match validate (new_doc m body w) with
        | (_ :: _) as errs =>
            (post_handler m body w).1
            = inr (Response 400 (Failure (ValidationError errs)))
        | [] =>
            answers w = false ->
            (post_handler m body w).1
            = inr (Response 400 (Failure Operational))
        end)
  /\ (forall m id body,
        ObjectId_of_string id = None ->
        (delete_handler m id w).1
        = inr (Response 500 (Failure (CastError "_id")))
        /\ (put_requests id body w).1
           = inr (Response 500 (Failure (CastError "_id"))))
  /\ (forall id body p,
        is_Some (ObjectId_of_string id) ->
        p ∈ requestSchema ->
        prop body (p_name p) <> JUndefined ->
        cast (p_type p) (prop body (p_name p)) = None ->
        exists e,
          (put_requests id body w).1 = inr (Response 500 (Failure e))
          /\ client_error e = true)
  /\ (answers w = false ->
      (forall m, (get_handler m w).1 = inr (Response 500 (Failure Operational)))
      /\ (forall m id,
            is_Some (ObjectId_of_string id) ->
            (delete_handler m id w).1
            = inr (Response 500 (Failure Operational)))
      /\ (forall id body u,
            is_Some (ObjectId_of_string id) ->
            castUpdate requestSchema body = inr u ->
            (put_requests id body w).1
            = inr (Response 500 (Failure Operational)))).
Proof.
  split; [intros r; apply app_answers|].
  split.
  { intros m path body handler. unfold api_route.
    repeat case_match; intros; simplify_eq;
      (eexists; split;
       [reflexivity
       |repeat (apply returns_plain_bind; intros);
        first [apply returns_plain_success | by apply returns_plain_json]]). }
  split.
  { intros [] body; cbn [new_doc post_handler].
    - rewrite post_donors_unfold, create_spec. cbn zeta.
      destruct (validate _); [|done].
      intros Hdown. rewrite Hdown. done.
    - rewrite post_inventory_spec. cbn zeta.
      destruct (validate _); [|done].
      intros Hdown. by rewrite Hdown.
    - rewrite post_requests_spec, create_spec. cbn zeta.
      destruct (validate _); [|done].
      intros Hdown. rewrite Hdown. done. }
  split.
  { intros m id body Hid. by rewrite delete_handler_spec, put_requests_spec, Hid. }
  split.
  { intros id body p [o Hid] Hp Hdef Hcast.
    destruct (castUpdate_uncastable requestSchema body p Hp Hdef Hcast)
      as [e He].
    exists e. rewrite put_requests_spec, Hid, He.
    split; [done|]. by eapply castUpdate_client_error. }
  intros Hdown. split; [|split].
  - intros m.
    destruct m; unfold get_handler, get_donors, get_inventory, get_requests;
      by rewrite listing_spec, Hdown.
  - intros m id [o Hid]. by rewrite delete_handler_spec, Hid, Hdown.
  - intros id body u [o Hid] Hu. by rewrite put_requests_spec, Hid, Hu, Hdown.
Qed.
End HandlerProperties.

(** ** Requests for blood *)
Section Requests.
Context `{Platform}.

Lemma enum_path_valid (k : string) (req : bool) (d : sdefault)
    (values : list string) (s : string) :
  validate_path (SPath k SString req d (Some values)) (PVal (Some (BStr s)))
  = None ->
  s ∈ values.
Proof.
  unfold validate_path. cbn [p_required p_type p_enum checkEnum].
  destruct (req && _); [done|].
  destruct (bool_decide (s ∈ values)) eqn:Hs; [|done].
  intros _. by apply bool_decide_eq_true in Hs.
Qed.

(** X15: a POST of a request that is not refused has appended one
    request, the one its answer shows, and changed nothing else; the
    request is [Pending] and dated now unless the body says otherwise,
    its priority is one of the four of the schema and its number of
    units is a number. *)
Theorem created_request_is_pending (body : jsobject) (w : world)
    (res : response)
    (Hres : (post_requests body w).1 = inr res)
    (Hok : is_failure res = false) :
  exists r,
    shows res r
    /\ requests (post_requests body w).2 = (requests w ++ [r])%list
    /\ donors (post_requests body w).2 = donors w
    /\ inventory (post_requests body w).2 = inventory w
    /\ (prop body "status" = JUndefined ->
        doc_fields r !! "status" = Some (BStr "Pending"))
    /\ (prop body "requestDate" = JUndefined ->
        doc_fields r !! "requestDate" = Some (BDate (now w)))
    /\ (exists p, doc_fields r !! "priority" = Some (BStr p)
                  /\ p ∈ ["Low"; "Medium"; "High"; "Critical"])
    /\ (exists n, doc_fields r !! "unitsNeeded" = Some (BNum n))
    /\ doc_fields r !! "__v" = Some (BNum 0).
Proof.
  rewrite post_requests_spec in *.
  destruct (create_outcome Request "request" body w res Hres Hok)
    as (o & -> & Ho & Hv & Hf & Hvalid & Hdocs & Hframe).
  cbn [nd_id nd_paths] in *.
  eexists (Doc o _). split.
  { exists "request". unfold success.
    cbn [res_payload sv_id sv_fields doc_fields].
    destruct (match prop body "_id" with JUndefined => _ | _ => _ end);
      [by right|subst; by left|by right]. }
  split; [exact Hdocs|].
  split; [by apply (Hframe Donor)|]. split; [by apply (Hframe Inventory)|].
  apply validate_nil in Hv as [_ Hall]. cbn [nd_paths] in Hall.
  rewrite Forall_fmap, Forall_forall in Hall.
  unfold inserted_fields. cbn [doc_fields nd_paths].
  set (f := fun p => init_path (now w) p (prop body (p_name p))) in *.
  assert (Hlook : forall p, p ∈ requestSchema -> p_name p <> "__v" ->
            (<["__v" := BNum 0]>
               (fields_of (map (fun p => (p, f p)) (schema_of Request))))
              !! p_name p
            = match f p with PVal v => v | PCastError => None end).
  { intros p Hp Hne. rewrite lookup_insert_ne by done.
    apply (fields_of_lookup f requestSchema p (schema_NoDup Request) Hp). }
  assert (Hmem : forall p, In p requestSchema -> p ∈ requestSchema).
  { intros p Hp. by apply list_elem_of_In. }
  split; [|split; [|split; [|split]]].
  - intros Hs.
    etrans;
      [apply (Hlook (SPath "status" SString false (DefaultStr "Pending")
                       (Some ["Pending"; "Fulfilled"; "Cancelled"])));
       [apply Hmem; simpl; tauto|done]|].
    subst f. cbn [p_name]. by rewrite Hs.
  - intros Hs.
    etrans;
      [apply (Hlook (SPath "requestDate" SDate false DefaultNow None));
       [apply Hmem; simpl; tauto|done]|].
    subst f. cbn [p_name]. by rewrite Hs.
  - pose (p := SPath "priority" SString true NoDefault
                 (Some ["Low"; "Medium"; "High"; "Critical"])).
    assert (Hp : p ∈ requestSchema) by (apply Hmem; simpl; tauto).
    pose proof (Hall p Hp) as Hvp. cbn [compose] in Hvp.
    destruct (required_path_valid _ _ _ _ _ Hvp) as (b & Hb & _ & Hreq).
    apply checkRequired_string in Hreq as (s & [= ->] & _).
    change (f p = PVal (Some (BStr s))) in Hb.
    change (validate_path p (f p) = None) in Hvp. rewrite Hb in Hvp.
    exists s. split; [|by apply enum_path_valid in Hvp].
    etrans; [by apply (Hlook p Hp)|]. by rewrite Hb.
  - pose (p := SPath "unitsNeeded" SNumber true NoDefault None).
    assert (Hp : p ∈ requestSchema) by (apply Hmem; simpl; tauto).
    pose proof (Hall p Hp) as Hvp. cbn [compose] in Hvp.
    destruct (required_path_valid _ _ _ _ _ Hvp) as (b & Hb & _ & Hreq).
    change (f p = PVal (Some b)) in Hb.
    destruct b as [|n| |]; try done.
    exists n. etrans; [by apply (Hlook p Hp)|]. by rewrite Hb.
  - apply lookup_insert_eq.
Qed.

End Requests.

(** ** The further properties on the sample deployment *)
Section Cases.
Import Sample Cases.
#[local] Existing Instance node.

(** The last instant a date can hold is a valid collection date with no
    valid expiry date. *)
Example collect_at_the_end_of_time :
  Date_new (JNum JSDate.maxTime) = Some JSDate.maxTime
  /\ expiry_of (JNum JSDate.maxTime) = None.
Proof. by vm_compute. Qed.

(** X1, on the registration of Dee. *)
Lemma ids_after_registering_dee :
  unique_ids (donors (app (post ["api"; "donors"] dee_body) clinic).2)
  /\ unique_ids (inventory (app (post ["api"; "donors"] dee_body) clinic).2)
  /\ unique_ids (requests (app (post ["api"; "donors"] dee_body) clinic).2).
Proof.
  apply identifiers_stay_unique; unfold unique_ids; compute_done.
Defined.

(** X2, on the unit collected from Ann. *)
Lemma anns_unit_enters_available :
  unit4 ∈ inventory clinic
  \/ (inventory (app (post ["api"; "inventory"] unit_body) clinic).2
      = (inventory clinic ++ [unit4])%list
      /\ valid_doc Inventory unit4 = true
      /\ doc_fields unit4 !! "status" = Some (BStr "Available")).
Proof.
  apply (stored_units_never_change (post ["api"; "inventory"] unit_body)).
  vm_compute. apply list_elem_of_here.
Defined.

(** X3, on Ann once a unit was collected from her. *)
Lemma ann_stays_ann :
  doc_id (with_last_donation 1705276800000 ann) = doc_id ann
  /\ forall k, k <> "lastDonation" ->
               doc_fields (with_last_donation 1705276800000 ann) !! k
               = doc_fields ann !! k.
Proof.
  apply (donor_fields_never_change (post ["api"; "inventory"] unit_body)
           clinic 1%N ann (with_last_donation 1705276800000 ann)).
  - unfold unique_ids. compute_done.
  - by vm_compute.
  - by vm_compute.
Defined.

(** X4, on a second unit collected from Ann. *)
Lemma clinic_stays_valid :
  Forall (fun d => valid_doc Donor d = true)
         (donors (app (post ["api"; "inventory"] unit_body) clinic_with_unit).2)
  /\ Forall (fun u => valid_doc Inventory u = true)
            (inventory (app (post ["api"; "inventory"] unit_body)
                            clinic_with_unit).2).
Proof.
  apply donors_and_units_stay_valid.
  - repeat constructor; by vm_compute.
  - repeat constructor; by vm_compute.
Defined.


(** X6, on the pending request once fulfilled. *)
Lemma fulfilled_request_is_listed :
  exists ds,
    (get_requests
       (put_requests "000000000000000000000003"
                     {["status" := JStr "Fulfilled"]} clinic).2).1
    = inr (Response 200 (Docs ds))
    /\ request3_fulfilled ∈ ds
    /\ forall x, x ∈ ds -> doc_id x = 3%N -> x = request3_fulfilled.
Proof.
  apply (update_shows_in_listing "000000000000000000000003"
           {["status" := JStr "Fulfilled"]} clinic
           (Response 200 (Success "request" (Some request3_fulfilled)))).
  - unfold unique_ids. compute_done.
  - by vm_compute.
  - done.
  - by vm_compute.
Defined.

(** X7, on the registration of Dee. *)
Lemma dee_is_listed :
  exists d ds,
    shows (Response 200 (Success "donor" (Some dee))) d
    /\ (get_donors (post_donors dee_body clinic).2).1
       = inr (Response 200 (Docs ds))
    /\ d ∈ ds
    /\ ds ≡ₚ [ann; bob] ++ [d].
Proof.
  apply (created_record_is_listed Donor dee_body clinic
           (Response 200 (Success "donor" (Some dee)))); by vm_compute.
Defined.

(** X8, on the removal of Ann. *)
Lemma ann_is_removed :
  find_id 1%N (donors (delete_donors "000000000000000000000001" clinic).2)
  = None
  /\ find_id 2%N (donors (delete_donors "000000000000000000000001" clinic).2)
     = Some bob
  /\ requests (delete_donors "000000000000000000000001" clinic).2
     = [request3].
Proof.
  destruct (delete_removes_the_record Donor "000000000000000000000001" 1%N
              clinic) as (Hgone & Hrest & Hframe);
    [by vm_compute|done|unfold unique_ids; compute_done|].
  split; [exact Hgone|]. split.
  - etrans; [by apply (Hrest 2%N)|]. by vm_compute.
  - etrans; [by apply (Hframe Request)|]. reflexivity.
Defined.

(** X9, on Dee registered and removed again. *)
Lemma dee_comes_and_goes :
  (delete_donors "000000000000000000000004"
                 (post_donors dee_body clinic).2).1
  = inr (Response 200 (SuccessMessage "Donor deleted successfully"))
  /\ donors (delete_donors "000000000000000000000004"
                           (post_donors dee_body clinic).2).2
     = [ann; bob].
Proof.
  apply (create_then_delete_restores Donor dee_body clinic
           (Response 200 (Success "donor" (Some dee))) "donor" dee
           "000000000000000000000004"); by vm_compute.
Defined.

(** X10, on a registration while the store is down. *)
Lemma nothing_registered_while_down :
  donors (app (post ["api"; "donors"] dee_body) clinic_down).2 = [ann; bob].
Proof.
  by apply (store_failure_changes_nothing (post ["api"; "donors"] dee_body)
              clinic_down Donor).
Defined.

(** X11, on an identifier that is no identifier. *)
Lemma not_an_id_is_a_500 :
  delete_inventory "not-an-id" clinic
  = (inr (Response 500 (Failure (CastError "_id"))), clinic)
  /\ put_requests "not-an-id" {["status" := JStr "Fulfilled"]} clinic
     = (inr (Response 500 (Failure (CastError "_id"))), clinic).
Proof.
  by apply (malformed_identifier_reaches_no_store Inventory "not-an-id").
Defined.

(** X13, on a unit without a collection date. *)
Lemma undated_unit_is_refused :
  exists errs,
    post_inventory (delete "collectionDate" unit_body) clinic
    = (inr (Response 400 (Failure (ValidationError errs))), bump clinic)
    /\ ("expiryDate", VCast) ∈ errs.
Proof.
  apply unusable_collection_date_is_refused. by left.
Defined.

(** X14, on Bob while a unit is collected from Ann. *)
Lemma bob_is_untouched :
  find_id 2%N (donors (post_inventory unit_body clinic).2) = Some bob.
Proof.
  rewrite (other_donors_untouched unit_body clinic 2%N); [done|].
  by vm_compute.
Defined.

(** X15, on Eve's request. *)
Lemma eves_request_is_pending :
  exists r,
    shows (Response 200 (Success "request" (Some eve))) r
    /\ requests (post_requests eve_body clinic).2 = [request3; r]
    /\ doc_fields r !! "status" = Some (BStr "Pending")
    /\ doc_fields r !! "requestDate" = Some (BDate (now clinic)).
Proof.
  destruct (created_request_is_pending eve_body clinic
              (Response 200 (Success "request" (Some eve))))
    as (r & Hshow & Hreq & _ & _ & Hs & Hd & _); [by vm_compute|done|].
  exists r. split; [exact Hshow|]. split; [exact Hreq|].
  split; [by apply Hs|by apply Hd].
Defined.
End Cases.
